(** * Recipe validator (validate_recipes.py): model and properties

    A shallow embedding of [RecipeValidator] and [main].  A method on
    [self] becomes a computation in a small state-and-exception monad over
    the validator object; the Python builtins the script relies on
    ([in], subscripting, truthiness, iteration, [isinstance]) are modelled
    on parsed JSON values with the behaviour CPython gives them, including
    the exceptions they raise on values of the wrong kind.  What the run
    finds on disk is an input: whether the recipes directory exists, the
    files [rglob] lists and, for each, the value it parses to or the
    exception that reading it raises.  Writing to the standard output is
    taken not to fail. *)

From Stdlib Require Import List String Ascii ZArith Bool Arith Lia Permutation.
From Stdlib Require Import Floats.SpecFloat Numbers.DecimalString.
Import ListNotations.

(** [l.append(x)] *)
Definition append {A} (l : list A) (x : A) : list A := l ++ [x].

Local Open Scope string_scope.

(** ** Values produced by [json.load]

    A Python [str] is modelled by [string]; each [ascii] of the model
    stands for one character of the Python string.  A [dict] is an
    association list in insertion order, looked up by first match
    ([json.load] leaves each key once).  A float is an IEEE 754 value of
    [spec_float]. *)

#[local] Set Warnings "-register-all".
Inductive json : Type :=
| JNull
| JBool (b : bool)
| JInt (z : Z)
| JFloat (f : spec_float)
| JStr (s : string)
| JList (l : list json)
| JDict (d : list (string * json)).

Definition dict : Type := list (string * json).

(** Exceptions, by class, with the text [str(e)] gives. *)
Inductive exn : Type :=
| JSONDecodeError (msg : string)
| TypeError (msg : string)
| AttributeError (msg : string)
| KeyError (msg : string)
| OtherException (msg : string).

Definition exn_str (e : exn) : string :=
  match e with
  | JSONDecodeError msg | TypeError msg | AttributeError msg
  | KeyError msg | OtherException msg => msg
  end.

Inductive outcome (A : Type) : Type :=
| Ok (a : A)
| Raise (e : exn).
Arguments Ok {A} a.
Arguments Raise {A} e.

Module Py.

(** [type(v).__name__] *)
Definition type_name (v : json) : string :=
  match v with
  | JNull => "NoneType"
  | JBool _ => "bool"
  | JInt _ => "int"
  | JFloat _ => "float"
  | JStr _ => "str"
  | JList _ => "list"
  | JDict _ => "dict"
  end.

(** [d.get(k)] *)
Fixpoint dict_get (k : string) (d : dict) : option json :=
  match d with
  | [] => None
  | (k', v) :: d' => if String.eqb k k' then Some v else dict_get k d'
  end.

(** [k in d] for a dict [d] *)
Definition dict_in (k : string) (d : dict) : bool :=
  match dict_get k d with Some _ => true | None => false end.

(** [d.get(k, default)] *)
Definition dict_get_default (k : string) (default : json) (d : dict) : json :=
  match dict_get k d with Some v => v | None => default end.

(** [d.keys()] *)
Definition dict_keys (d : dict) : list string := map fst d.

(** [d[k]]: the value, or [KeyError] whose text is the repr of the key. *)
Definition subscript (d : dict) (k : string) : outcome json :=
  match dict_get k d with
  | Some v => Ok v
  | None => Raise (KeyError ("'" ++ k ++ "'"))
  end.

(** Iterating over a [str] yields its characters as one-character
    strings. *)
Fixpoint chars (s : string) : list string :=
  match s with
  | EmptyString => []
  | String a s' => String a EmptyString :: chars s'
  end.

(** [isinstance(v, bool)], [isinstance(v, (int, float))] ([bool] is a
    subclass of [int]), [isinstance(v, list)], [isinstance(v, dict)]. *)
Definition is_bool (v : json) : bool :=
  match v with JBool _ => true | _ => false end.
Definition is_number (v : json) : bool :=
  match v with JBool _ | JInt _ | JFloat _ => true | _ => false end.
Definition is_list (v : json) : bool :=
  match v with JList _ => true | _ => false end.
Definition is_dict (v : json) : bool :=
  match v with JDict _ => true | _ => false end.

(** [v <= 0] for a number [v] ([False] is 0 and [True] is 1; a float is
    compared as IEEE 754 does, so nan is not below zero and -0.0 is).  The
    script evaluates it behind [isinstance(v, (int, float))] only. *)
Definition le_zero (v : json) : bool :=
  match v with
  | JBool b => (Z.b2z b <=? 0)%Z
  | JInt z => (z <=? 0)%Z
  | JFloat f => SFleb f (S754_zero false)
  | _ => false
  end.

(** Truth value of a list or dict: it is not empty. *)
Definition nonempty {A} (l : list A) : bool :=
  match l with [] => false | _ :: _ => true end.

(** Truth value of an object, as [not v] tests it. *)
Definition truth (v : json) : bool :=
  match v with
  | JNull => false
  | JBool b => b
  | JInt z => negb (z =? 0)%Z
  | JFloat f => negb (SFeqb f (S754_zero false))
  | JStr s => negb (String.eqb s "")
  | JList l => nonempty l
  | JDict d => nonempty d
  end.

(** [for x in v]: the elements of a list, the characters of a string, the
    keys of a dict; anything else is not iterable. *)
Definition iter (v : json) : outcome (list json) :=
  match v with
  | JList l => Ok l
  | JStr s => Ok (map JStr (chars s))
  | JDict d => Ok (map JStr (dict_keys d))
  | _ => Raise (TypeError ("'" ++ type_name v ++ "' object is not iterable"))
  end.

(** [x == s] for a string [s]. *)
Definition eq_str (x : json) (s : string) : bool :=
  match x with JStr x' => String.eqb x' s | _ => false end.

(** [c in v] for a string [c]: key membership in a dict, element equality
    in a list, substring test in a string, [TypeError] otherwise. *)
Definition contains (v : json) (c : string) : outcome bool :=
  match v with
  | JDict d => Ok (dict_in c d)
  | JList l => Ok (existsb (fun x => eq_str x c) l)
  | JStr s => Ok (match index 0 c s with Some _ => true | None => false end)
  | _ => Raise (TypeError ("argument of type '" ++ type_name v ++ "' is not iterable"))
  end.

(** [v.keys()] *)
Definition keys (v : json) : outcome (list string) :=
  match v with
  | JDict d => Ok (dict_keys d)
  | _ => Raise (AttributeError ("'" ++ type_name v ++ "' object has no attribute 'keys'"))
  end.

(** [table.get(k)] for a dict with string keys and a key [k] of any kind:
    lists and dicts cannot be hashed, and nothing but a string equals a
    string. *)
Definition get {V} (table : list (string * V)) (k : json) : outcome (option V) :=
  match k with
  | JList _ | JDict _ =>
      Raise (TypeError ("unhashable type: '" ++ type_name k ++ "'"))
  | JStr s =>
      Ok (option_map snd (find (fun kv => String.eqb s (fst kv)) table))
  | _ => Ok None
  end.

(** [str(n)] for a length. *)
Definition str_nat (n : nat) : string := NilZero.string_of_uint (Nat.to_uint n).

(** A [set] of strings, kept as the distinct elements in the order of
    their first insertion. *)
Definition set := list string.
Definition set_in (x : string) (s : set) : bool := existsb (String.eqb x) s.
Definition set_add (x : string) (s : set) : set :=
  if set_in x s then s else append s x.

End Py.

(** ** The validator object and the process output *)

Record RecipeValidator : Type := mkValidator {
  recipes_path : string;
  errors : list string;
  warnings : list string;
  validated_files : nat;
  stdout : list string   (* the arguments of the calls to [print], in order *)
}.

(** [RecipeValidator(recipes_path)] in a process that has printed nothing. *)
Definition init (path : string) : RecipeValidator :=
  mkValidator path [] [] 0 [].

(** The default of [__init__]'s [recipes_path]. *)
Definition default_recipes_path : string :=
  "src/main/resources/data/createimmersivetacz/recipes".

(** ** Methods: state over [self], with exceptions *)

Definition M (A : Type) : Type := RecipeValidator -> outcome A * RecipeValidator.

Definition ret {A} (a : A) : M A := fun self => (Ok a, self).
Definition bind {A B} (m : M A) (k : A -> M B) : M B :=
  fun self =>
    match m self with
    | (Ok a, self') => k a self'
    | (Raise e, self') => (Raise e, self')
    end.
Definition lift {A} (o : outcome A) : M A := fun self => (o, self).
Definition get_self : M RecipeValidator := fun self => (Ok self, self).

(** [try: m except Exception as e: handler(e)]; what [m] did to [self]
    before raising stays done. *)
Definition try_except {A} (m : M A) (handler : exn -> M A) : M A :=
  fun self =>
    match m self with
    | (Ok a, self') => (Ok a, self')
    | (Raise e, self') => handler e self'
    end.

Declare Scope py_scope.
Delimit Scope py_scope with py.
Notation "x <- m ;; k" := (bind m (fun x => k))
  (at level 100, m at next level, right associativity) : py_scope.
Notation "m ;; k" := (bind m (fun _ => k))
  (at level 100, right associativity) : py_scope.
Local Open Scope py_scope.

(** [for x in l: body(x)] *)
Fixpoint for_each {A} (l : list A) (body : A -> M unit) : M unit :=
  match l with
  | [] => ret tt
  | x :: l' => body x ;; for_each l' body
  end.

(** A loop that also updates a local variable. *)
Fixpoint for_fold {A S} (l : list A) (body : S -> A -> M S) (s : S) : M S :=
  match l with
  | [] => ret s
  | x :: l' => s' <- body s x ;; for_fold l' body s'
  end.

Definition print (line : string) : M unit :=
  fun self =>
    (Ok tt, mkValidator (recipes_path self) (errors self) (warnings self)
                        (validated_files self) (append (stdout self) line)).

Definition add_error (path message : string) : M unit :=
  fun self =>
    (Ok tt, mkValidator (recipes_path self)
                        (append (errors self) ("[ERROR] " ++ path ++ ": " ++ message))
                        (warnings self) (validated_files self) (stdout self)).

Definition add_warning (path message : string) : M unit :=
  fun self =>
    (Ok tt, mkValidator (recipes_path self) (errors self)
                        (append (warnings self) ("[WARNING] " ++ path ++ ": " ++ message))
                        (validated_files self) (stdout self)).

(** [self.validated_files += 1] *)
Definition count_file : M unit :=
  fun self =>
    (Ok tt, mkValidator (recipes_path self) (errors self) (warnings self)
                        (validated_files self + 1) (stdout self)).

(** ** Rule sets and shared sub-checks *)

Section Validator.

(** [str(v)], as an f-string formats a parsed value: the interpreter's
    own, not this script's. *)
Variable py_str : json -> string.

(** The order in which [for x in s] visits a set: set by the hashes of
    the elements, which CPython salts per process for strings. *)
Variable set_iter : Py.set -> list string.

Definition validate_ingredient (path : string) (ingredient : dict) : M unit :=
  let has_item := Py.dict_in "item" ingredient in
  let has_tag := Py.dict_in "tag" ingredient in
  let has_fluid := Py.dict_in "fluid" ingredient in
  (if negb (has_item || has_tag || has_fluid)
   then add_error path "Ingredient must have 'item', 'tag', or 'fluid' field"
   else ret tt) ;;
  let type_count := Nat.b2n has_item + Nat.b2n has_tag + Nat.b2n has_fluid in
  if (1 <? type_count)%nat
  then add_warning path "Ingredient has multiple type fields (item/tag/fluid)"
  else ret tt.

Definition validate_ingredients (path : string) (ingredients : json) : M unit :=
  match ingredients with
  | JList l =>
      (if negb (Py.truth ingredients)
       then add_warning path "Ingredients array is empty"
       else ret tt) ;;
      for_each l (fun ingredient =>
        match ingredient with
        | JDict d => validate_ingredient path d
        | _ => add_error path "Ingredient must be a JSON object"
        end)
  | JDict d => validate_ingredient path d
  | _ => add_error path "Ingredients must be a JSON object or array"
  end.

Definition validate_result (path : string) (result : json) : M unit :=
  match result with
  | JDict result =>
      let has_item := Py.dict_in "item" result in
      let has_fluid := Py.dict_in "fluid" result in
      (if negb (has_item || has_fluid)
       then add_error path "Result must have 'item' or 'fluid' field"
       else ret tt) ;;
      (if Py.dict_in "count" result then
         count <- lift (Py.subscript result "count") ;;
         if Py.is_number count && Py.le_zero count
         then add_error path ("Result count must be positive, got: " ++ py_str count)
         else ret tt
       else ret tt) ;;
      if Py.dict_in "amount" result then
        amount <- lift (Py.subscript result "amount") ;;
        if Py.is_number amount && Py.le_zero amount
        then add_error path ("Result amount must be positive, got: " ++ py_str amount)
        else ret tt
      else ret tt
  | _ => add_error path "Result must be a JSON object"
  end.

Definition validate_results (path : string) (results : json) : M unit :=
  (if negb (Py.truth results)
   then add_warning path "Results array is empty"
   else ret tt) ;;
  l <- lift (Py.iter results) ;;
  for_each l (fun result =>
    match result with
    | JDict _ => validate_result path result
    | _ => add_error path "Result must be a JSON object"
    end).

Definition validate_pattern (path : string) (recipe : dict) : M unit :=
  pattern <- lift (Py.subscript recipe "pattern") ;;
  let key := Py.dict_get_default "key" (JDict []) recipe in
  if negb (Py.truth pattern) then
    add_error path "Pattern array is empty"
  else
    rows <- lift (Py.iter pattern) ;;
    used_keys <- for_fold rows (fun used_keys row =>
      match row with
      | JStr row =>
          ret (fold_left (fun used char =>
                            if String.eqb char " " then used
                            else Py.set_add char used)
                         (Py.chars row) used_keys)
      | _ => add_error path "Pattern row must be a string" ;; ret used_keys
      end) ([] : Py.set) ;;
    for_each (set_iter used_keys) (fun char =>
      defined <- lift (Py.contains key char) ;;
      if negb defined
      then add_error path ("Pattern uses key '" ++ char
                           ++ "' but it's not defined in 'key' object")
      else ret tt) ;;
    keys <- lift (Py.keys key) ;;
    for_each keys (fun defined_key =>
      if (String.length defined_key =? 1)%nat && negb (Py.set_in defined_key used_keys)
      then add_warning path ("Key '" ++ defined_key
                             ++ "' is defined but never used in pattern")
      else ret tt).

Definition validate_mechanical_crafting (path : string) (recipe : dict) : M unit :=
  (if negb (Py.dict_in "key" recipe) then
     add_error path "Mechanical crafting missing 'key' field"
   else
     key <- lift (Py.subscript recipe "key") ;;
     if negb (Py.is_dict key)
     then add_error path "Field 'key' must be a JSON object"
     else ret tt) ;;
  (if negb (Py.dict_in "pattern" recipe) then
     add_error path "Mechanical crafting missing 'pattern' field"
   else
     pattern <- lift (Py.subscript recipe "pattern") ;;
     if negb (Py.is_list pattern)
     then add_error path "Field 'pattern' must be a JSON array"
     else validate_pattern path recipe) ;;
  (if negb (Py.dict_in "result" recipe) then
     add_error path "Mechanical crafting missing 'result' field"
   else
     result <- lift (Py.subscript recipe "result") ;;
     validate_result path result) ;;
  if Py.dict_in "acceptMirrored" recipe then
    accept <- lift (Py.subscript recipe "acceptMirrored") ;;
    if negb (Py.is_bool accept)
    then add_error path "Field 'acceptMirrored' must be a boolean"
    else ret tt
  else ret tt.

Definition validate_cutting (path : string) (recipe : dict) : M unit :=
  (if negb (Py.dict_in "ingredients" recipe) then
     add_error path "Cutting recipe missing 'ingredients' field"
   else
     ingredients <- lift (Py.subscript recipe "ingredients") ;;
     validate_ingredients path ingredients) ;;
  (if negb (Py.dict_in "results" recipe) then
     add_error path "Cutting recipe missing 'results' field"
   else
     results <- lift (Py.subscript recipe "results") ;;
     if negb (Py.is_list results)
     then add_error path "Field 'results' must be a JSON array"
     else validate_results path results) ;;
  if Py.dict_in "processingTime" recipe then
    time <- lift (Py.subscript recipe "processingTime") ;;
    if negb (Py.is_number time)
    then add_error path "Field 'processingTime' must be a number"
    else ret tt
  else ret tt.

Definition validate_mixing (path : string) (recipe : dict) : M unit :=
  (if negb (Py.dict_in "ingredients" recipe) then
     add_error path "Mixing recipe missing 'ingredients' field"
   else
     ingredients <- lift (Py.subscript recipe "ingredients") ;;
     validate_ingredients path ingredients) ;;
  (if negb (Py.dict_in "results" recipe) then
     add_error path "Mixing recipe missing 'results' field"
   else
     results <- lift (Py.subscript recipe "results") ;;
     if negb (Py.is_list results)
     then add_error path "Field 'results' must be a JSON array"
     else validate_results path results) ;;
  if Py.dict_in "heatRequirement" recipe then
    heat <- lift (Py.subscript recipe "heatRequirement") ;;
    if negb (existsb (Py.eq_str heat) ["none"; "heated"; "superheated"])
    then add_error path ("Invalid heatRequirement: " ++ py_str heat)
    else ret tt
  else ret tt.

Definition validate_sequenced_assembly (path : string) (recipe : dict) : M unit :=
  let required_fields :=
    ["ingredient"; "transitionalItem"; "sequence"; "results"; "loops"] in
  for_each required_fields (fun field =>
    if negb (Py.dict_in field recipe)
    then add_error path ("Sequenced assembly missing '" ++ field ++ "' field")
    else ret tt) ;;
  if Py.dict_in "sequence" recipe then
    sequence <- lift (Py.subscript recipe "sequence") ;;
    if negb (Py.is_list sequence)
    then add_error path "Field 'sequence' must be a JSON array"
    else ret tt
  else ret tt.

Definition validate_filling (path : string) (recipe : dict) : M unit :=
  (if negb (Py.dict_in "ingredients" recipe)
   then add_error path "Filling recipe missing 'ingredients' field"
   else ret tt) ;;
  if negb (Py.dict_in "results" recipe)
  then add_error path "Filling recipe missing 'results' field"
  else ret tt.

Definition validate_emptying (path : string) (recipe : dict) : M unit :=
  (if negb (Py.dict_in "ingredients" recipe)
   then add_error path "Emptying recipe missing 'ingredients' field"
   else ret tt) ;;
  if negb (Py.dict_in "results" recipe)
  then add_error path "Emptying recipe missing 'results' field"
  else ret tt.

Definition validate_pressing (path : string) (recipe : dict) : M unit :=
  (if negb (Py.dict_in "ingredients" recipe)
   then add_error path "Pressing recipe missing 'ingredients' field"
   else ret tt) ;;
  if negb (Py.dict_in "results" recipe)
  then add_error path "Pressing recipe missing 'results' field"
  else ret tt.

Definition validate_deploying (path : string) (recipe : dict) : M unit :=
  (if negb (Py.dict_in "ingredients" recipe)
   then add_error path "Deploying recipe missing 'ingredients' field"
   else ret tt) ;;
  if negb (Py.dict_in "results" recipe)
  then add_error path "Deploying recipe missing 'results' field"
  else ret tt.

Definition validate_vanilla_crafting (path : string) (recipe : dict) : M unit :=
  if negb (Py.dict_in "result" recipe)
  then add_error path "Vanilla crafting missing 'result' field"
  else ret tt.

(** *** Dispatch *)

Definition rule_set : Type := string -> dict -> M unit.

Definition validators : list (string * rule_set) :=
  [ ("create:mechanical_crafting", validate_mechanical_crafting);
    ("create:cutting", validate_cutting);
    ("create:mixing", validate_mixing);
    ("create:sequenced_assembly", validate_sequenced_assembly);
    ("create:filling", validate_filling);
    ("create:emptying", validate_emptying);
    ("create:pressing", validate_pressing);
    ("create:deploying", validate_deploying);
    ("minecraft:crafting_shaped", validate_vanilla_crafting);
    ("minecraft:crafting_shapeless", validate_vanilla_crafting) ].

(** A file found by [rglob]: its path relative to the recipes directory
    and what [open] followed by [json.load] gives for it, a parsed value
    or the exception raised. *)
Record recipe_file : Type := mkFile {
  relative_path : string;
  load : outcome json
}.

(** The body of the [try] block of [validate_recipe_file], over a table
    of rule sets; the script runs it with [validators]. *)
Definition check_recipe (table : list (string * rule_set))
           (file : recipe_file) : M unit :=
  let relative_path := relative_path file in
  recipe <- lift (load file) ;;
  match recipe with
  | JDict recipe =>
      if negb (Py.dict_in "type" recipe) then
        add_error relative_path "Missing required field: 'type'"
      else
        recipe_type <- lift (Py.subscript recipe "type") ;;
        validator <- lift (Py.get table recipe_type) ;;
        match validator with
        | Some validator => validator relative_path recipe
        | None => add_warning relative_path
                    ("Unknown recipe type: " ++ py_str recipe_type)
        end
  | _ => add_error relative_path "Root element is not a JSON object"
  end.

Definition validate_recipe_file_with (table : list (string * rule_set))
           (file : recipe_file) : M unit :=
  let relative_path := relative_path file in
  print ("Validating: " ++ relative_path) ;;
  count_file ;;
  try_except (check_recipe table file)
    (fun e =>
       match e with
       | JSONDecodeError _ =>
           add_error relative_path ("Failed to parse JSON: " ++ exn_str e)
       | _ => add_error relative_path ("Unexpected error: " ++ exn_str e)
       end).

Definition validate_recipe_file : recipe_file -> M unit :=
  validate_recipe_file_with validators.

(** *** The run *)

Definition newline : string := String "010" EmptyString.

Definition print_results : M unit :=
  self <- get_self ;;
  (if Py.nonempty (warnings self) then
     print (newline ++ "=== Warnings ===") ;;
     for_each (warnings self) print
   else ret tt) ;;
  if Py.nonempty (errors self) then
    print (newline ++ "=== Errors ===") ;;
    for_each (errors self) print ;;
    print (newline ++ "❌ Found " ++ Py.str_nat (List.length (errors self))
           ++ " error(s) in recipes")
  else
    print (newline ++ "=== Validation Complete ===") ;;
    print ("✓ All " ++ Py.str_nat (validated_files self) ++ " recipes are valid!").

(** The recipes directory as a run finds it: whether it exists, and the
    files [rglob("*.json")] lists, in the order it lists them. *)
Record directory : Type := mkDirectory {
  dir_exists : bool;
  rglob : list recipe_file
}.

Definition validate_all (fs : directory) : M bool :=
  print "=== Validating Recipes ===" ;;
  if negb (dir_exists fs) then
    self <- get_self ;;
    add_error "Global"
      ("Recipes directory does not exist: " ++ recipes_path self) ;;
    ret false
  else
    let recipe_files := rglob fs in
    print ("Found " ++ Py.str_nat (List.length recipe_files) ++ " recipe files") ;;
    for_each recipe_files validate_recipe_file ;;
    print_results ;;
    self <- get_self ;;
    ret (List.length (errors self) =? 0)%nat.

(** [main]: the exit status of the process and the validator it leaves.
    An exception that reaches the top level ends the process with
    status 1. *)
Definition main (fs : directory) : Z * RecipeValidator :=
  let validator := init default_recipes_path in
  match validate_all fs validator with
  | (Ok success, validator') => ((if success then 0 else 1)%Z, validator')
  | (Raise _, validator') => (1%Z, validator')
  end.

End Validator.

(** ** What a computation adds to the validator

    The checks only ever append to [errors], [warnings] and the output and
    count files; [delta] is such an addition, [extend] applies it. *)

Record delta : Type := mkDelta {
  d_errors : list string;
  d_warnings : list string;
  d_files : nat;
  d_stdout : list string
}.

Definition extend (self : RecipeValidator) (d : delta) : RecipeValidator :=
  mkValidator (recipes_path self)
              (errors self ++ d_errors d)%list
              (warnings self ++ d_warnings d)%list
              (validated_files self + d_files d)
              (stdout self ++ d_stdout d)%list.

Definition dnil : delta := mkDelta [] [] 0 [].

Definition dapp (d1 d2 : delta) : delta :=
  mkDelta (d_errors d1 ++ d_errors d2)%list
          (d_warnings d1 ++ d_warnings d2)%list
          (d_files d1 + d_files d2)
          (d_stdout d1 ++ d_stdout d2)%list.

Definition d_error (path message : string) : delta :=
  mkDelta ["[ERROR] " ++ path ++ ": " ++ message] [] 0 [].

Definition d_warning (path message : string) : delta :=
  mkDelta [] ["[WARNING] " ++ path ++ ": " ++ message] 0 [].

(** [m] returns [r] and adds [d], whatever the validator holds. *)
Definition writes {A} (m : M A) (r : outcome A) (d : delta) : Prop :=
  forall self, m self = (r, extend self d).

(** Two additions with the same diagnostics, the errors possibly in another
    order. *)
Definition deq (d1 d2 : delta) : Prop :=
  Permutation (d_errors d1) (d_errors d2) /\
  d_warnings d1 = d_warnings d2 /\
  d_files d1 = d_files d2 /\
  d_stdout d1 = d_stdout d2.

(** Two computations that return the same and add the same up to [deq]. *)
Definition sim {A} (m1 m2 : M A) : Prop :=
  exists r d1 d2, writes m1 r d1 /\ writes m2 r d2 /\ deq d1 d2.

(** A computation that counts no file and prints nothing. *)
Definition quiet {A} (m : M A) : Prop :=
  forall self,
    validated_files (snd (m self)) = validated_files self /\
    stdout (snd (m self)) = stdout self.

(** Tables with the same keys and similar rule sets. *)
Definition table_sim (t1 t2 : list (string * rule_set)) : Prop :=
  Forall2 (fun a b => fst a = fst b /\
                      forall path recipe, sim (snd a path recipe) (snd b path recipe))
          t1 t2.

(** What one file adds, run from an empty validator. *)
Definition file_delta (py_str : json -> string) (set_iter : Py.set -> list string)
           (file : recipe_file) : delta :=
  let v := snd (validate_recipe_file py_str set_iter file (init "")) in
  mkDelta (errors v) (warnings v) (validated_files v) (stdout v).

(** What the files of a directory add, one after the other. *)
Definition files_delta (py_str : json -> string) (set_iter : Py.set -> list string)
           (files : list recipe_file) : delta :=
  fold_right (fun file d => dapp (file_delta py_str set_iter file) d) dnil files.

(** What [print_results] prints for a validator. *)
Definition results_lines (self : RecipeValidator) : list string :=
  app
    (if Py.nonempty (warnings self)
     then (newline ++ "=== Warnings ===") :: warnings self
     else [])
    (if Py.nonempty (errors self)
     then (newline ++ "=== Errors ===")
          :: append (errors self)
               (newline ++ "❌ Found " ++ Py.str_nat (List.length (errors self))
                ++ " error(s) in recipes")
     else [newline ++ "=== Validation Complete ===";
           "✓ All " ++ Py.str_nat (validated_files self) ++ " recipes are valid!"]).

(** The validator after the files of a directory that exists, before the
    results are printed. *)
Definition after_files (py_str : json -> string) (set_iter : Py.set -> list string)
           (fs : directory) (self : RecipeValidator) : RecipeValidator :=
  extend self
    (dapp (mkDelta [] [] 0
             ["=== Validating Recipes ===";
              "Found " ++ Py.str_nat (List.length (rglob fs)) ++ " recipe files"])
          (files_delta py_str set_iter (rglob fs))).

(** The body of the loop of [validate_pattern] over the used keys. *)
Definition undefined_key_check (path : string) (key : json) (char : string)
  : M unit :=
  defined <- lift (Py.contains key char) ;;
  if negb defined
  then add_error path ("Pattern uses key '" ++ char
                       ++ "' but it's not defined in 'key' object")
  else ret tt.

(** The keys a pattern uses, as the first loop of [validate_pattern]
    collects them: the characters of the rows that are strings, blanks left
    out. *)
Definition add_row_keys (used : Py.set) (row : string) : Py.set :=
  fold_left (fun used char =>
               if String.eqb char " " then used else Py.set_add char used)
            (Py.chars row) used.

Definition used_keys_from (used : Py.set) (rows : list json) : Py.set :=
  fold_left (fun used row =>
               match row with
               | JStr row => add_row_keys used row
               | _ => used
               end) rows used.

(** What [validate_pattern] adds for rows [rows], not empty, and a key
    mapping [kd]. *)
Definition pattern_delta (set_iter : Py.set -> list string) (path : string)
           (rows : list json) (kd : dict) : delta :=
  let used_keys := used_keys_from [] rows in
  mkDelta
    (app (flat_map (fun row =>
                      match row with
                      | JStr _ => []
                      | _ => ["[ERROR] " ++ path ++ ": Pattern row must be a string"]
                      end) rows)
         (flat_map (fun char =>
                      if Py.dict_in char kd then []
                      else ["[ERROR] " ++ path ++ ": Pattern uses key '" ++ char
                            ++ "' but it's not defined in 'key' object"])
                   (set_iter used_keys)))
    (flat_map (fun defined_key =>
                 if (String.length defined_key =? 1)%nat
                    && negb (Py.set_in defined_key used_keys)
                 then ["[WARNING] " ++ path ++ ": Key '" ++ defined_key
                       ++ "' is defined but never used in pattern"]
                 else [])
              (Py.dict_keys kd))
    0 [].

(** The errors of one result mapping, check by check. *)
Definition result_errors (py_str : json -> string) (path : string) (d : dict)
  : list string :=
  app (if Py.dict_in "item" d || Py.dict_in "fluid" d then []
       else ["[ERROR] " ++ path ++ ": Result must have 'item' or 'fluid' field"])
  (app match Py.dict_get "count" d with
       | Some count =>
           if Py.is_number count && Py.le_zero count
           then ["[ERROR] " ++ path ++ ": Result count must be positive, got: "
                 ++ py_str count]
           else []
       | None => []
       end
       match Py.dict_get "amount" d with
       | Some amount =>
           if Py.is_number amount && Py.le_zero amount
           then ["[ERROR] " ++ path ++ ": Result amount must be positive, got: "
                 ++ py_str amount]
           else []
       | None => []
       end).

(** The errors [validate_result] has for a count and for an amount. *)
Definition about_count (path e : string) : Prop :=
  exists got, e = "[ERROR] " ++ path ++ ": Result count must be positive, got: " ++ got.

Definition about_amount (path e : string) : Prop :=
  exists got, e = "[ERROR] " ++ path ++ ": Result amount must be positive, got: " ++ got.

(** ** Interpreters for the examples

    [example_str] formats a string as [str] does and any other value as
    the name of its type in angle brackets; [insertion_order] and
    [reverse_order] are two orders in which a process may visit a set. *)

Definition example_str (v : json) : string :=
  match v with
  | JStr s => s
  | _ => "<" ++ Py.type_name v ++ ">"
  end.

Definition insertion_order (s : Py.set) : list string := s.
Definition reverse_order (s : Py.set) : list string := rev s.

(** A directory with one recipe whose pattern uses two characters that its
    key does not define. *)
Definition two_undefined_keys : directory :=
  mkDirectory true
    [mkFile "a.json"
       (Ok (JDict [("type", JStr "create:mechanical_crafting");
                   ("key", JDict []);
                   ("pattern", JList [JStr "AB"]);
                   ("result", JDict [("item", JStr "x")])]))].

(** ** The diagnostics of the shared checks, as lists

    What the checks of ingredients and of results add, element by element,
    written as plain lists to state what the monadic checks do. *)

Definition ingredient_errors (path : string) (ingredient : json) : list string :=
  match ingredient with
  | JDict d =>
      if Py.dict_in "item" d || Py.dict_in "tag" d || Py.dict_in "fluid" d
      then []
      else ["[ERROR] " ++ path
            ++ ": Ingredient must have 'item', 'tag', or 'fluid' field"]
  | _ => ["[ERROR] " ++ path ++ ": Ingredient must be a JSON object"]
  end.

Definition ingredient_warnings (path : string) (ingredient : json) : list string :=
  match ingredient with
  | JDict d =>
      if (1 <? Nat.b2n (Py.dict_in "item" d) + Nat.b2n (Py.dict_in "tag" d)
               + Nat.b2n (Py.dict_in "fluid" d))%nat
      then ["[WARNING] " ++ path
            ++ ": Ingredient has multiple type fields (item/tag/fluid)"]
      else []
  | _ => []
  end.

Definition ingredients_errors (path : string) (ingredients : json) : list string :=
  match ingredients with
  | JList l => flat_map (ingredient_errors path) l
  | JDict _ => ingredient_errors path ingredients
  | _ => ["[ERROR] " ++ path ++ ": Ingredients must be a JSON object or array"]
  end.

Definition ingredients_warnings (path : string) (ingredients : json) : list string :=
  match ingredients with
  | JList l =>
      app (if Py.nonempty l then []
           else ["[WARNING] " ++ path ++ ": Ingredients array is empty"])
          (flat_map (ingredient_warnings path) l)
  | JDict _ => ingredient_warnings path ingredients
  | _ => []
  end.

Definition results_errors (py_str : json -> string) (path : string)
           (results : list json) : list string :=
  flat_map (fun result =>
              match result with
              | JDict d => result_errors py_str path d
              | _ => ["[ERROR] " ++ path ++ ": Result must be a JSON object"]
              end) results.

Definition results_warnings (path : string) (results : list json) : list string :=
  if Py.nonempty results then []
  else ["[WARNING] " ++ path ++ ": Results array is empty"].

(** What the checks of the ['ingredients'] and ['results'] fields of a
    cutting or mixing recipe add; [kind] is ["Cutting"] or ["Mixing"]. *)

Definition ingredients_field_errors (kind path : string) (recipe : dict)
  : list string :=
  match Py.dict_get "ingredients" recipe with
  | Some ingredients => ingredients_errors path ingredients
  | None => ["[ERROR] " ++ path ++ ": " ++ kind
             ++ " recipe missing 'ingredients' field"]
  end.

Definition ingredients_field_warnings (path : string) (recipe : dict)
  : list string :=
  match Py.dict_get "ingredients" recipe with
  | Some ingredients => ingredients_warnings path ingredients
  | None => []
  end.

Definition results_field_errors (py_str : json -> string) (kind path : string)
           (recipe : dict) : list string :=
  match Py.dict_get "results" recipe with
  | Some (JList results) => results_errors py_str path results
  | Some _ => ["[ERROR] " ++ path ++ ": Field 'results' must be a JSON array"]
  | None => ["[ERROR] " ++ path ++ ": " ++ kind ++ " recipe missing 'results' field"]
  end.

Definition results_field_warnings (path : string) (recipe : dict) : list string :=
  match Py.dict_get "results" recipe with
  | Some (JList results) => results_warnings path results
  | _ => []
  end.

(** ** Two runs that differ in the order of set iteration

    The one loop of the script over a set is the loop of [validate_pattern]
    that reports the used keys the key mapping does not define. *)

Definition is_undefined_key_error (path e : string) : Prop :=
  exists char,
    e = "[ERROR] " ++ path ++ ": Pattern uses key '" ++ char
        ++ "' but it's not defined in 'key' object".

(** Two lists of errors for one path that are the same but for the order
    within one run of consecutive errors for undefined keys. *)
Definition same_but_key_order (path : string) (l1 l2 : list string) : Prop :=
  exists before keys1 keys2 after,
    l1 = app before (app keys1 after) /\
    l2 = app before (app keys2 after) /\
    Permutation keys1 keys2 /\
    forall e, In e keys1 -> is_undefined_key_error path e.

(** A computation that returns and adds the same whatever the validator
    holds. *)
Definition framed {A} (m : M A) : Prop := exists r d, writes m r d.

(** Two computations that return the same and add the same, but for the
    order within one run of consecutive errors for undefined keys. *)
Definition agree {A} (path : string) (m1 m2 : M A) : Prop :=
  exists r before keys1 keys2 after ws n out,
    writes m1 r (mkDelta (app before (app keys1 after)) ws n out) /\
    writes m2 r (mkDelta (app before (app keys2 after)) ws n out) /\
    Permutation keys1 keys2 /\
    forall e, In e keys1 -> is_undefined_key_error path e.

(** Two lists of lines that are the same line for line, but for the order
    within runs of consecutive errors for undefined keys, the errors of one
    run all for one path. *)
Inductive same_but_key_orders : list string -> list string -> Prop :=
| same_nil : same_but_key_orders [] []
| same_block path l1 l2 rest1 rest2 :
    same_but_key_order path l1 l2 ->
    same_but_key_orders rest1 rest2 ->
    same_but_key_orders (app l1 rest1) (app l2 rest2).

(** Tables with the same keys and rule sets that agree. *)
Definition table_agree (t1 t2 : list (string * rule_set)) : Prop :=
  Forall2 (fun a b => fst a = fst b /\
                      forall path recipe,
                        agree path (snd a path recipe) (snd b path recipe))
          t1 t2.

(** * Properties *)

(** ** The algebra of additions *)

Lemma extend_dnil self : extend self dnil = self.
Proof.
  destruct self; unfold extend; simpl.
  now rewrite ?app_nil_r, ?Nat.add_0_r.
Qed.

Lemma extend_dapp self d1 d2 :
  extend (extend self d1) d2 = extend self (dapp d1 d2).
Proof.
  unfold extend, dapp; simpl.
  f_equal; auto using app_assoc, Nat.add_assoc, eq_sym.
Qed.

Lemma extend_init_inj path d1 d2 :
  extend (init path) d1 = extend (init path) d2 -> d1 = d2.
Proof.
  destruct d1, d2; unfold extend; simpl; congruence.
Qed.

Lemma deq_refl d : deq d d.
Proof. repeat split; auto. Qed.

Lemma deq_dapp d1 d2 e1 e2 :
  deq d1 d2 -> deq e1 e2 -> deq (dapp d1 e1) (dapp d2 e2).
Proof.
  intros (Hp & Hw & Hf & Ho) (Hp' & Hw' & Hf' & Ho').
  unfold deq, dapp; simpl.
  rewrite Hw, Hw', Hf, Hf', Ho, Ho'.
  repeat split; auto using Permutation_app.
Qed.

(** Normal form of sides built from [extend] and [dapp]. *)
Ltac delta_norm :=
  unfold extend, dapp, dnil, d_error, d_warning, append;
  cbn [recipes_path errors warnings validated_files stdout
       d_errors d_warnings d_files d_stdout app Nat.add];
  rewrite ?app_nil_r, ?Nat.add_0_r, <- ?app_assoc;
  cbn [app].

(** ** How the monad's operations write *)

Lemma writes_ret {A} (a : A) : writes (ret a) (Ok a) dnil.
Proof. intros self; unfold ret; now rewrite extend_dnil. Qed.

Lemma writes_lift {A} (o : outcome A) : writes (lift o) o dnil.
Proof. intros self; unfold lift; now rewrite extend_dnil. Qed.

Lemma writes_add_error path message :
  writes (add_error path message) (Ok tt) (d_error path message).
Proof.
  intros self; unfold add_error, extend, d_error, append; simpl.
  now rewrite ?app_nil_r, ?Nat.add_0_r.
Qed.

Lemma writes_add_warning path message :
  writes (add_warning path message) (Ok tt) (d_warning path message).
Proof.
  intros self; unfold add_warning, extend, d_warning, append; simpl.
  now rewrite ?app_nil_r, ?Nat.add_0_r.
Qed.

Lemma writes_print line :
  writes (print line) (Ok tt) (mkDelta [] [] 0 [line]).
Proof.
  intros self; unfold print, extend, append; simpl.
  now rewrite ?app_nil_r, ?Nat.add_0_r.
Qed.

Lemma writes_count_file : writes count_file (Ok tt) (mkDelta [] [] 1 []).
Proof.
  intros self; unfold count_file, extend; simpl.
  now rewrite ?app_nil_r, ?Nat.add_0_r.
Qed.

Lemma writes_bind_ok {A B} (m : M A) (k : A -> M B) a d1 r d2 :
  writes m (Ok a) d1 -> writes (k a) r d2 -> writes (bind m k) r (dapp d1 d2).
Proof.
  intros Hm Hk self; unfold bind.
  now rewrite Hm, Hk, extend_dapp.
Qed.

Lemma writes_bind_eq {A B} (m : M A) (k : A -> M B) a d1 r d2 d :
  writes m (Ok a) d1 -> writes (k a) r d2 -> d = dapp d1 d2 ->
  writes (bind m k) r d.
Proof. intros Hm Hk ->. now apply writes_bind_ok with a. Qed.

Lemma writes_bind_raise {A B} (m : M A) (k : A -> M B) e d :
  writes m (Raise e) d -> writes (bind m k) (Raise e) d.
Proof. intros Hm self; unfold bind; now rewrite Hm. Qed.

Lemma writes_try_ok {A} (m : M A) handler a d :
  writes m (Ok a) d -> writes (try_except m handler) (Ok a) d.
Proof. intros Hm self; unfold try_except; now rewrite Hm. Qed.

Lemma writes_try_raise {A} (m : M A) handler e d1 r d2 :
  writes m (Raise e) d1 -> writes (handler e) r d2 ->
  writes (try_except m handler) r (dapp d1 d2).
Proof.
  intros Hm Hh self; unfold try_except.
  now rewrite Hm, Hh, extend_dapp.
Qed.

(** A computation writes one thing only. *)
Lemma writes_unique {A} (m : M A) r r' d d' :
  writes m r d -> writes m r' d' -> r = r' /\ d = d'.
Proof.
  intros H H'. specialize (H (init "")). rewrite (H' (init "")) in H.
  assert (Hr : r' = r) by congruence.
  assert (Hd : extend (init "") d' = extend (init "") d) by congruence.
  apply extend_init_inj in Hd. now subst.
Qed.

(** ** Similar computations compose *)

Lemma sim_of_writes {A} (m : M A) r d : writes m r d -> sim m m.
Proof. intros H; exists r, d, d; auto using deq_refl. Qed.

Lemma sim_ret {A} (a : A) : sim (ret a) (ret a).
Proof. eapply sim_of_writes, writes_ret. Qed.

Lemma sim_lift {A} (o : outcome A) : sim (lift o) (lift o).
Proof. eapply sim_of_writes, writes_lift. Qed.

Lemma sim_add_error path message :
  sim (add_error path message) (add_error path message).
Proof. eapply sim_of_writes, writes_add_error. Qed.

Lemma sim_add_warning path message :
  sim (add_warning path message) (add_warning path message).
Proof. eapply sim_of_writes, writes_add_warning. Qed.

Lemma sim_print line : sim (print line) (print line).
Proof. eapply sim_of_writes, writes_print. Qed.

Lemma sim_count_file : sim count_file count_file.
Proof. eapply sim_of_writes, writes_count_file. Qed.

Lemma sim_bind {A B} (m1 m2 : M A) (k1 k2 : A -> M B) :
  sim m1 m2 -> (forall a, sim (k1 a) (k2 a)) -> sim (bind m1 k1) (bind m2 k2).
Proof.
  intros (r & d1 & d2 & H1 & H2 & Hd) Hk.
  destruct r as [a|e].
  - destruct (Hk a) as (r' & e1 & e2 & K1 & K2 & He).
    exists r', (dapp d1 e1), (dapp d2 e2).
    split; [|split].
    + now apply writes_bind_ok with a.
    + now apply writes_bind_ok with a.
    + now apply deq_dapp.
  - exists (Raise e), d1, d2.
    split; [|split]; auto using writes_bind_raise.
Qed.

Lemma sim_try_except {A} (m1 m2 : M A) (h1 h2 : exn -> M A) :
  sim m1 m2 -> (forall e, sim (h1 e) (h2 e)) ->
  sim (try_except m1 h1) (try_except m2 h2).
Proof.
  intros (r & d1 & d2 & H1 & H2 & Hd) Hh.
  destruct r as [a|e].
  - exists (Ok a), d1, d2.
    split; [|split]; auto using writes_try_ok.
  - destruct (Hh e) as (r' & e1 & e2 & K1 & K2 & He).
    exists r', (dapp d1 e1), (dapp d2 e2).
    split; [|split].
    + now apply writes_try_raise with e.
    + now apply writes_try_raise with e.
    + now apply deq_dapp.
Qed.

Lemma sim_for_each {A} (l : list A) (b1 b2 : A -> M unit) :
  (forall x, sim (b1 x) (b2 x)) -> sim (for_each l b1) (for_each l b2).
Proof.
  intros Hb; induction l as [|x l IH]; simpl.
  - apply sim_ret.
  - apply sim_bind; auto.
Qed.

Lemma sim_for_fold {A S} (l : list A) (b1 b2 : S -> A -> M S) :
  (forall s x, sim (b1 s x) (b2 s x)) ->
  forall s, sim (for_fold l b1 s) (for_fold l b2 s).
Proof.
  intros Hb; induction l as [|x l IH]; intros s; simpl.
  - apply sim_ret.
  - apply sim_bind; auto.
Qed.

Create HintDb sim discriminated.
#[local] Hint Resolve sim_ret sim_lift sim_add_error sim_add_warning
  sim_print sim_count_file : sim.

(** One step through a pair of identical computations. *)
Ltac sim_step :=
  lazymatch goal with
  | |- sim (bind _ _) (bind _ _) => apply sim_bind; [| intros ?]
  | |- sim (for_each _ _) (for_each _ _) => apply sim_for_each; intros ?
  | |- sim (for_fold _ _ _) (for_fold _ _ _) => apply sim_for_fold; intros ? ?
  | |- sim (if ?b then _ else _) _ => destruct b
  | |- sim (match ?x with _ => _ end) _ => destruct x
  | |- _ => solve [auto with sim]
  end.

Ltac sim_auto := repeat sim_step.

(** ** The rule sets write, and in a way that does not depend on the order
    of set iteration but for the order of the errors *)

Section SetOrders.

Variable py_str : json -> string.
Variables set_iter set_iter' : Py.set -> list string.
Hypothesis set_iter_same : forall s, Permutation (set_iter s) (set_iter' s).

Lemma sim_validate_ingredient path d :
  sim (validate_ingredient path d) (validate_ingredient path d).
Proof. unfold validate_ingredient; sim_auto. Qed.

Lemma sim_validate_ingredients path v :
  sim (validate_ingredients path v) (validate_ingredients path v).
Proof.
  unfold validate_ingredients; sim_auto; apply sim_validate_ingredient.
Qed.

Lemma sim_validate_result path v :
  sim (validate_result py_str path v) (validate_result py_str path v).
Proof. unfold validate_result; sim_auto. Qed.

Lemma sim_validate_results path v :
  sim (validate_results py_str path v) (validate_results py_str path v).
Proof.
  unfold validate_results; sim_auto; apply sim_validate_result.
Qed.

(** The loop over the used keys: either [in] works on [key], and each
    character adds its own error or nothing, or it raises at the first
    character. *)
Lemma contains_cases key :
  (exists f, forall c, Py.contains key c = Ok (f c)) \/
  (exists e, forall c, Py.contains key c = Raise e).
Proof.
  destruct key; simpl; try (right; eexists; reflexivity).
  - left. now exists (fun c => match index 0 c s with Some _ => true | None => false end).
  - left. now exists (fun c => existsb (fun x => Py.eq_str x c) l).
  - left. now exists (fun c => Py.dict_in c d).
Qed.

Lemma writes_undefined_keys path key f l :
  (forall c, Py.contains key c = Ok (f c)) ->
  writes (for_each l (undefined_key_check path key)) (Ok tt)
    (mkDelta
       (flat_map (fun c => if f c then []
                           else ["[ERROR] " ++ path ++ ": Pattern uses key '" ++ c
                                 ++ "' but it's not defined in 'key' object"]) l)
       [] 0 []).
Proof.
  intros Hf; induction l as [|c l IH]; simpl.
  - apply writes_ret.
  - assert (Hc : writes (undefined_key_check path key c) (Ok tt)
                   (mkDelta (if f c then []
                             else ["[ERROR] " ++ path ++ ": Pattern uses key '" ++ c
                                   ++ "' but it's not defined in 'key' object"])
                            [] 0 [])).
    { intros self. unfold undefined_key_check, bind, lift. rewrite Hf.
      destruct (f c); simpl.
      - exact (writes_ret tt self).
      - exact (writes_add_error _ _ self). }
    exact (writes_bind_ok _ _ tt _ _ _ Hc IH).
Qed.

Lemma writes_undefined_keys_raise path key e l :
  (forall c, Py.contains key c = Raise e) ->
  writes (for_each l (undefined_key_check path key))
    (match l with [] => Ok tt | _ :: _ => Raise e end) dnil.
Proof.
  intros He; destruct l as [|c l]; simpl.
  - apply writes_ret.
  - apply writes_bind_raise. unfold undefined_key_check. rewrite He.
    apply writes_bind_raise, writes_lift.
Qed.

Lemma sim_undefined_keys path key l l' :
  Permutation l l' ->
  sim (for_each l (undefined_key_check path key))
      (for_each l' (undefined_key_check path key)).
Proof.
  intros Hp. destruct (contains_cases key) as [[f Hf]|[e He]].
  - eexists _, _, _. split; [|split].
    + apply writes_undefined_keys, Hf.
    + apply writes_undefined_keys, Hf.
    + repeat split; simpl. now apply Permutation_flat_map.
  - eexists _, _, _. split; [|split].
    + apply writes_undefined_keys_raise, He.
    + replace (match l with [] => Ok tt | _ :: _ => Raise e end)
        with (match l' with [] => Ok tt | _ :: _ => Raise e end).
      * apply writes_undefined_keys_raise, He.
      * destruct l, l'; try reflexivity.
        -- now apply Permutation_nil_cons in Hp.
        -- symmetry in Hp. now apply Permutation_nil_cons in Hp.
    + apply deq_refl.
Qed.

Lemma sim_validate_pattern path recipe :
  sim (validate_pattern set_iter path recipe)
      (validate_pattern set_iter' path recipe).
Proof.
  unfold validate_pattern.
  apply sim_bind; [apply sim_lift | intros pattern].
  destruct (negb (Py.truth pattern)); [apply sim_add_error|].
  apply sim_bind; [apply sim_lift | intros rows].
  apply sim_bind; [sim_auto | intros used_keys].
  apply sim_bind; [| intros _; sim_auto].
  apply sim_undefined_keys, set_iter_same.
Qed.

#[local] Hint Resolve sim_validate_ingredients sim_validate_result
  sim_validate_results sim_validate_pattern : sim.

Lemma sim_validate_mechanical_crafting path recipe :
  sim (validate_mechanical_crafting py_str set_iter path recipe)
      (validate_mechanical_crafting py_str set_iter' path recipe).
Proof. unfold validate_mechanical_crafting; sim_auto. Qed.

Lemma sim_validate_cutting path recipe :
  sim (validate_cutting py_str path recipe) (validate_cutting py_str path recipe).
Proof. unfold validate_cutting; sim_auto. Qed.

Lemma sim_validate_mixing path recipe :
  sim (validate_mixing py_str path recipe) (validate_mixing py_str path recipe).
Proof. unfold validate_mixing; sim_auto. Qed.

Lemma sim_validate_sequenced_assembly path recipe :
  sim (validate_sequenced_assembly path recipe)
      (validate_sequenced_assembly path recipe).
Proof. unfold validate_sequenced_assembly; sim_auto. Qed.

Lemma sim_validate_filling path recipe :
  sim (validate_filling path recipe) (validate_filling path recipe).
Proof. unfold validate_filling; sim_auto. Qed.

Lemma sim_validate_emptying path recipe :
  sim (validate_emptying path recipe) (validate_emptying path recipe).
Proof. unfold validate_emptying; sim_auto. Qed.

Lemma sim_validate_pressing path recipe :
  sim (validate_pressing path recipe) (validate_pressing path recipe).
Proof. unfold validate_pressing; sim_auto. Qed.

Lemma sim_validate_deploying path recipe :
  sim (validate_deploying path recipe) (validate_deploying path recipe).
Proof. unfold validate_deploying; sim_auto. Qed.

Lemma sim_validate_vanilla_crafting path recipe :
  sim (validate_vanilla_crafting path recipe)
      (validate_vanilla_crafting path recipe).
Proof. unfold validate_vanilla_crafting; sim_auto. Qed.

Lemma table_sim_validators :
  table_sim (validators py_str set_iter) (validators py_str set_iter').
Proof.
  unfold table_sim, validators.
  repeat (constructor; [split; [reflexivity | intros path recipe; simpl] |]);
    auto using sim_validate_mechanical_crafting, sim_validate_cutting,
      sim_validate_mixing, sim_validate_sequenced_assembly,
      sim_validate_filling, sim_validate_emptying, sim_validate_pressing,
      sim_validate_deploying, sim_validate_vanilla_crafting.
Qed.

(** *** Dispatch over similar tables *)

Lemma table_sim_get t1 t2 (k : json) :
  table_sim t1 t2 ->
  (exists e, Py.get t1 k = Raise e /\ Py.get t2 k = Raise e) \/
  (Py.get t1 k = Ok None /\ Py.get t2 k = Ok None) \/
  (exists v1 v2, Py.get t1 k = Ok (Some v1) /\ Py.get t2 k = Ok (Some v2) /\
                 forall path recipe, sim (v1 path recipe) (v2 path recipe)).
Proof.
  intros Ht. destruct k; simpl; eauto.
  induction Ht as [|[k1 v1] [k2 v2] t1 t2 [Hk Hv] Ht IH]; simpl in *; auto.
  subst k2. destruct (String.eqb s k1); simpl; eauto 8.
Qed.

Lemma sim_check_recipe t1 t2 file :
  table_sim t1 t2 ->
  sim (check_recipe py_str t1 file) (check_recipe py_str t2 file).
Proof.
  intros Ht. unfold check_recipe.
  apply sim_bind; [apply sim_lift | intros recipe].
  destruct recipe; try apply sim_add_error.
  destruct (negb (Py.dict_in "type" d)); [apply sim_add_error|].
  apply sim_bind; [apply sim_lift | intros recipe_type].
  destruct (table_sim_get t1 t2 recipe_type Ht)
    as [(e & -> & ->) | [(-> & ->) | (v1 & v2 & -> & -> & Hv)]].
  - exact (sim_lift (Raise e)).
  - apply sim_add_warning.
  - apply Hv.
Qed.

Lemma sim_validate_recipe_file_with t1 t2 file :
  table_sim t1 t2 ->
  sim (validate_recipe_file_with py_str t1 file)
      (validate_recipe_file_with py_str t2 file).
Proof.
  intros Ht. unfold validate_recipe_file_with.
  apply sim_bind; [apply sim_print | intros _].
  apply sim_bind; [apply sim_count_file | intros _].
  apply sim_try_except; [now apply sim_check_recipe|].
  intros e; destruct e; apply sim_add_error.
Qed.

Lemma sim_validate_recipe_file file :
  sim (validate_recipe_file py_str set_iter file)
      (validate_recipe_file py_str set_iter' file).
Proof. apply sim_validate_recipe_file_with, table_sim_validators. Qed.

End SetOrders.

(** ** One file, and the run over the files *)

Section Run.

Variable py_str : json -> string.
Variable set_iter : Py.set -> list string.

(** No exception leaves [validate_recipe_file]. *)
Lemma validate_recipe_file_with_returns table file self :
  fst (validate_recipe_file_with py_str table file self) = Ok tt.
Proof.
  unfold validate_recipe_file_with, bind, try_except, print, count_file.
  destruct (check_recipe py_str table file _) as [[[]|e] self'];
    [reflexivity | destruct e; reflexivity].
Qed.

(** A file adds [file_delta], whatever the files before it left. *)
Lemma writes_validate_recipe_file file :
  writes (validate_recipe_file py_str set_iter file) (Ok tt)
         (file_delta py_str set_iter file).
Proof.
  destruct (sim_validate_recipe_file py_str set_iter set_iter
              (fun s => Permutation_refl _) file) as (r & d & _ & H & _ & _).
  assert (Hr : r = Ok tt).
  { pose proof (validate_recipe_file_with_returns
                  (validators py_str set_iter) file (init "")) as E.
    unfold validate_recipe_file in H. now rewrite H in E. }
  subst r.
  assert (Hd : file_delta py_str set_iter file = d).
  { unfold file_delta. rewrite H. now destruct d. }
  now rewrite Hd.
Qed.

Lemma writes_files files :
  writes (for_each files (validate_recipe_file py_str set_iter)) (Ok tt)
         (files_delta py_str set_iter files).
Proof.
  induction files as [|file files IH]; simpl.
  - apply writes_ret.
  - exact (writes_bind_ok _ _ tt _ _ _ (writes_validate_recipe_file file) IH).
Qed.

Lemma writes_print_lines lines :
  writes (for_each lines print) (Ok tt) (mkDelta [] [] 0 lines).
Proof.
  induction lines as [|line lines IH]; simpl.
  - apply writes_ret.
  - exact (writes_bind_ok _ _ tt _ _ _ (writes_print line) IH).
Qed.

Lemma print_results_run self :
  print_results self = (Ok tt, extend self (mkDelta [] [] 0 (results_lines self))).
Proof.
  unfold print_results, results_lines, bind, get_self.
  destruct (Py.nonempty (warnings self)), (Py.nonempty (errors self));
    repeat (first [rewrite writes_print | rewrite writes_print_lines
                  | rewrite extend_dapp | progress unfold ret];
            cbv beta iota);
    unfold dapp, append; simpl; rewrite <- ?app_assoc; reflexivity.
Qed.

(** The whole of [validate_all], as one equation. *)
Lemma validate_all_run fs self :
  validate_all py_str set_iter fs self =
  if dir_exists fs then
    let self' := after_files py_str set_iter fs self in
    (Ok (List.length (errors self') =? 0)%nat,
     extend self' (mkDelta [] [] 0 (results_lines self')))
  else
    (Ok false,
     extend self
       (mkDelta ["[ERROR] Global: Recipes directory does not exist: "
                 ++ recipes_path self] [] 0 ["=== Validating Recipes ==="])).
Proof.
  unfold validate_all, after_files, bind, get_self.
  rewrite writes_print; cbv beta iota.
  destruct (dir_exists fs); cbn [negb]; cbv beta iota zeta.
  - rewrite writes_print; cbv beta iota.
    rewrite writes_files; cbv beta iota.
    rewrite print_results_run; cbv beta iota.
    unfold ret. delta_norm. reflexivity.
  - rewrite writes_add_error; cbv beta iota.
    unfold ret. delta_norm. reflexivity.
Qed.

End Run.

(** ** The outcome of a run *)


(** C8: when the recipes directory does not exist, the run stops before
    any file: one error for path [Global] is collected and nothing else, no
    file is counted, the banner alone has been printed, the result is
    failure and the exit status is 1. *)
Theorem missing_root_aborts py_str set_iter fs :
  dir_exists fs = false ->
  (forall self,
      validate_all py_str set_iter fs self =
      (Ok false,
       mkValidator (recipes_path self)
         (append (errors self)
                 ("[ERROR] Global: Recipes directory does not exist: "
                  ++ recipes_path self))
         (warnings self) (validated_files self)
         (append (stdout self) "=== Validating Recipes ==="))) /\
  main py_str set_iter fs =
  (1%Z,
   mkValidator default_recipes_path
     ["[ERROR] Global: Recipes directory does not exist: " ++ default_recipes_path]
     [] 0 ["=== Validating Recipes ==="]).
Proof.
  intros Hd.
  assert (H : forall self,
      validate_all py_str set_iter fs self =
      (Ok false,
       mkValidator (recipes_path self)
         (append (errors self)
                 ("[ERROR] Global: Recipes directory does not exist: "
                  ++ recipes_path self))
         (warnings self) (validated_files self)
         (append (stdout self) "=== Validating Recipes ==="))).
  { intros self. rewrite validate_all_run, Hd. delta_norm. reflexivity. }
  split; [exact H|].
  unfold main. now rewrite H.
Qed.

Lemma missing_root_aborts_witness :
  main example_str insertion_order
       (mkDirectory false [mkFile "a.json" (Ok (JDict []))]) =
  (1%Z,
   mkValidator default_recipes_path
     ["[ERROR] Global: Recipes directory does not exist: " ++ default_recipes_path]
     [] 0 ["=== Validating Recipes ==="]).
Proof.
  apply (missing_root_aborts example_str insertion_order
           (mkDirectory false [mkFile "a.json" (Ok (JDict []))])).
  reflexivity.
Defined.

(** Scenario A: a mixing recipe with a heat requirement outside the three
    known values gets one error, quoting the value. *)
Example mixing_invalid_heat :
  main example_str insertion_order
    (mkDirectory true
       [mkFile "mix.json"
          (Ok (JDict [("type", JStr "create:mixing");
                      ("ingredients", JList [JDict [("item", JStr "x")]]);
                      ("results", JList [JDict [("item", JStr "y")]]);
                      ("heatRequirement", JStr "molten")]))]) =
  (1%Z,
   mkValidator default_recipes_path
     ["[ERROR] mix.json: Invalid heatRequirement: molten"] [] 1
     ["=== Validating Recipes ==="; "Found 1 recipe files";
      "Validating: mix.json";
      newline ++ "=== Errors ===";
      "[ERROR] mix.json: Invalid heatRequirement: molten";
      newline ++ "❌ Found 1 error(s) in recipes"]).
Proof. reflexivity. Qed.

(** Scenario B: a cutting recipe with no results gets a warning and the
    run still succeeds. *)
Example cutting_empty_results :
  main example_str insertion_order
    (mkDirectory true
       [mkFile "cut.json"
          (Ok (JDict [("type", JStr "create:cutting");
                      ("ingredients", JDict [("tag", JStr "x")]);
                      ("results", JList [])]))]) =
  (0%Z,
   mkValidator default_recipes_path []
     ["[WARNING] cut.json: Results array is empty"] 1
     ["=== Validating Recipes ==="; "Found 1 recipe files";
      "Validating: cut.json";
      newline ++ "=== Warnings ===";
      "[WARNING] cut.json: Results array is empty";
      newline ++ "=== Validation Complete ===";
      "✓ All 1 recipes are valid!"]).
Proof. reflexivity. Qed.

(** Scenario D: an ingredient with no item, tag or fluid gets one error and
    the exit status is 1. *)
Example ingredient_without_identity :
  let run :=
    main example_str insertion_order
      (mkDirectory true
         [mkFile "cut.json"
            (Ok (JDict [("type", JStr "create:cutting");
                        ("ingredients", JList [JDict [("count", JInt 2)]]);
                        ("results", JList [JDict [("item", JStr "y")]])]))]) in
  fst run = 1%Z /\
  errors (snd run) =
  ["[ERROR] cut.json: Ingredient must have 'item', 'tag', or 'fluid' field"] /\
  warnings (snd run) = [].
Proof. repeat split. Qed.

(** ** Dispatch on the type *)

(** C2: a document that is a mapping without a ['type'] field gets one
    error, naming the missing field, and nothing else: the outcome is the
    same for every table of rule sets, so none of them has run. *)
Theorem missing_type_is_one_error py_str table path recipe self :
  Py.dict_in "type" recipe = false ->
  validate_recipe_file_with py_str table (mkFile path (Ok (JDict recipe))) self =
  (Ok tt,
   mkValidator (recipes_path self)
     (append (errors self) ("[ERROR] " ++ path ++ ": Missing required field: 'type'"))
     (warnings self)
     (validated_files self + 1)
     (append (stdout self) ("Validating: " ++ path))).
Proof.
  intros Htype.
  unfold validate_recipe_file_with, check_recipe, bind, try_except, lift.
  cbn [relative_path load]. rewrite Htype. reflexivity.
Qed.

Lemma missing_type_is_one_error_witness :
  validate_recipe_file example_str insertion_order
    (mkFile "a.json" (Ok (JDict [("result", JDict [])]))) (init "recipes") =
  (Ok tt,
   mkValidator "recipes" ["[ERROR] a.json: Missing required field: 'type'"]
     [] 1 ["Validating: a.json"]).
Proof.
  apply (missing_type_is_one_error example_str
           (validators example_str insertion_order) "a.json"
           [("result", JDict [])] (init "recipes")).
  reflexivity.
Defined.

(** The ten types the table knows. *)
Lemma validators_keys py_str set_iter :
  map fst (validators py_str set_iter) =
  [ "create:mechanical_crafting"; "create:cutting"; "create:mixing";
    "create:sequenced_assembly"; "create:filling"; "create:emptying";
    "create:pressing"; "create:deploying";
    "minecraft:crafting_shaped"; "minecraft:crafting_shapeless" ].
Proof. reflexivity. Qed.

Lemma get_unknown {V} (table : list (string * V)) s :
  ~ In s (map fst table) -> Py.get table (JStr s) = Ok None.
Proof.
  intros Hs. unfold Py.get.
  replace (find (fun kv => String.eqb s (fst kv)) table) with (@None (string * V));
    [reflexivity|].
  induction table as [|[k v] table IH]; simpl in *; [reflexivity|].
  destruct (String.eqb_spec s k) as [->|_]; [tauto|].
  apply IH. tauto.
Qed.

(** C3, as stated, fails on a type that cannot be hashed: the lookup in
    the table raises, and the file gets an error and no warning. *)
Lemma unhashable_type_is_an_error :
  let self' :=
    snd (validate_recipe_file example_str insertion_order
           (mkFile "a.json" (Ok (JDict [("type", JList [])]))) (init "recipes")) in
  (forall s, In s (map fst (validators example_str insertion_order)) ->
             JList [] <> JStr s) /\
  warnings self' = [] /\
  errors self' = ["[ERROR] a.json: Unexpected error: unhashable type: 'list'"] /\
  ~ (List.length (warnings self') = 1 /\ errors self' = []).
Proof.
  cbv zeta. split; [|split; [reflexivity | split; [reflexivity|]]].
  - intros s _. discriminate.
  - intros [H _]. discriminate H.
Qed.

(** C3, amended: a document whose ['type'] is null, a boolean, a number or
    a string, and not one of the ten known types, gets one warning and
    nothing else: no error and no other check. *)
Theorem unknown_type_is_one_warning py_str set_iter path recipe recipe_type self :
  Py.dict_get "type" recipe = Some recipe_type ->
  Py.is_list recipe_type = false ->
  Py.is_dict recipe_type = false ->
  (forall s, recipe_type = JStr s ->
             ~ In s (map fst (validators py_str set_iter))) ->
  validate_recipe_file py_str set_iter (mkFile path (Ok (JDict recipe))) self =
  (Ok tt,
   mkValidator (recipes_path self)
     (errors self)
     (append (warnings self)
             ("[WARNING] " ++ path ++ ": Unknown recipe type: " ++ py_str recipe_type))
     (validated_files self + 1)
     (append (stdout self) ("Validating: " ++ path))).
Proof.
  intros Htype Hl Hd Hs.
  assert (Hget : Py.get (validators py_str set_iter) recipe_type = Ok None).
  { destruct recipe_type; try reflexivity; try discriminate.
    apply get_unknown, Hs. reflexivity. }
  unfold validate_recipe_file, validate_recipe_file_with, check_recipe,
    bind, try_except, lift, Py.dict_in, Py.subscript.
  cbn [relative_path load]. rewrite Htype. cbn [negb]. rewrite Hget.
  reflexivity.
Qed.

Lemma unknown_type_is_one_warning_witness :
  validate_recipe_file example_str insertion_order
    (mkFile "a.json" (Ok (JDict [("type", JStr "create:milling")]))) (init "recipes") =
  (Ok tt,
   mkValidator "recipes" []
     ["[WARNING] a.json: Unknown recipe type: create:milling"]
     1 ["Validating: a.json"]).
Proof.
  apply (unknown_type_is_one_warning example_str insertion_order "a.json"
           [("type", JStr "create:milling")] (JStr "create:milling")
           (init "recipes")); try reflexivity.
  intros s Hs. injection Hs as <-. simpl. intuition discriminate.
Defined.

(** ** Ingredients *)

Lemma validate_ingredient_run path d self :
  validate_ingredient path d self =
  (Ok tt,
   extend self
     (mkDelta
        (if Py.dict_in "item" d || Py.dict_in "tag" d || Py.dict_in "fluid" d
         then []
         else ["[ERROR] " ++ path
               ++ ": Ingredient must have 'item', 'tag', or 'fluid' field"])
        (if (1 <? Nat.b2n (Py.dict_in "item" d) + Nat.b2n (Py.dict_in "tag" d)
                  + Nat.b2n (Py.dict_in "fluid" d))%nat
         then ["[WARNING] " ++ path
               ++ ": Ingredient has multiple type fields (item/tag/fluid)"]
         else [])
        0 [])).
Proof.
  unfold validate_ingredient, bind, ret, add_error, add_warning.
  destruct self.
  destruct (Py.dict_in "item" d), (Py.dict_in "tag" d), (Py.dict_in "fluid" d);
    cbn [orb negb Nat.b2n Nat.add Nat.ltb Nat.leb];
    delta_norm; reflexivity.
Qed.

Lemma for_each_mappings path l self :
  for_each (map JDict l)
    (fun ingredient =>
       match ingredient with
       | JDict d => validate_ingredient path d
       | _ => add_error path "Ingredient must be a JSON object"
       end) self =
  for_each l (validate_ingredient path) self.
Proof.
  revert self; induction l as [|x l IH]; intros self; [reflexivity|].
  cbn [map for_each]. unfold bind.
  destruct (validate_ingredient path x self) as [[[]|e] self']; auto.
Qed.

(** C5: the ingredients may be one mapping or a sequence of mappings; an
    empty sequence gets a warning and no error; a mapping with none of
    ['item'], ['tag'], ['fluid'] gets an error; a mapping with more than one
    of them gets a warning and no error; a mapping with exactly one gets
    nothing.  In a sequence of mappings each element is checked so, in
    order. *)
Theorem ingredient_shape path :
  (* one mapping is checked as an ingredient *)
  (forall d, validate_ingredients path (JDict d) = validate_ingredient path d) /\
  (* an empty sequence: a warning, no error *)
  (forall self,
      validate_ingredients path (JList []) self =
      (Ok tt,
       mkValidator (recipes_path self) (errors self)
         (append (warnings self)
                 ("[WARNING] " ++ path ++ ": Ingredients array is empty"))
         (validated_files self) (stdout self))) /\
  (* a mapping with no identity field: an error *)
  (forall d self,
      Py.dict_in "item" d = false -> Py.dict_in "tag" d = false ->
      Py.dict_in "fluid" d = false ->
      validate_ingredient path d self =
      (Ok tt,
       mkValidator (recipes_path self)
         (append (errors self)
                 ("[ERROR] " ++ path
                  ++ ": Ingredient must have 'item', 'tag', or 'fluid' field"))
         (warnings self) (validated_files self) (stdout self))) /\
  (* a mapping with more than one identity field: a warning, no error *)
  (forall d self,
      (Py.dict_in "item" d = true /\ Py.dict_in "tag" d = true) \/
      (Py.dict_in "item" d = true /\ Py.dict_in "fluid" d = true) \/
      (Py.dict_in "tag" d = true /\ Py.dict_in "fluid" d = true) ->
      validate_ingredient path d self =
      (Ok tt,
       mkValidator (recipes_path self) (errors self)
         (append (warnings self)
                 ("[WARNING] " ++ path
                  ++ ": Ingredient has multiple type fields (item/tag/fluid)"))
         (validated_files self) (stdout self))) /\
  (* a mapping with exactly one identity field: nothing *)
  (forall d self,
      Nat.b2n (Py.dict_in "item" d) + Nat.b2n (Py.dict_in "tag" d)
      + Nat.b2n (Py.dict_in "fluid" d) = 1 ->
      validate_ingredient path d self = (Ok tt, self)) /\
  (* a sequence of mappings: each element in turn *)
  (forall d ds self,
      validate_ingredients path (JList (map JDict (d :: ds))) self =
      for_each (d :: ds) (validate_ingredient path) self).
Proof.
  split; [|split; [|split; [|split; [|split]]]].
  - reflexivity.
  - intros self.
    unfold validate_ingredients, bind, add_warning, ret; simpl. reflexivity.
  - intros d self Hi Ht Hf.
    rewrite validate_ingredient_run, Hi, Ht, Hf. delta_norm. reflexivity.
  - intros d self H. rewrite validate_ingredient_run.
    destruct (Py.dict_in "item" d), (Py.dict_in "tag" d), (Py.dict_in "fluid" d);
      try (exfalso; intuition discriminate); delta_norm; reflexivity.
  - intros d self H. rewrite validate_ingredient_run.
    destruct (Py.dict_in "item" d), (Py.dict_in "tag" d), (Py.dict_in "fluid" d);
      try discriminate H; delta_norm; destruct self; reflexivity.
  - intros d ds self.
    unfold validate_ingredients, bind, ret. cbn [Py.truth Py.nonempty map negb].
    change (JDict d :: map JDict ds) with (map JDict (d :: ds)).
    apply for_each_mappings.
Qed.

Lemma ingredient_shape_witness :
  validate_ingredient "a.json" [("count", JInt 2)] (init "recipes") =
  (Ok tt,
   mkValidator "recipes"
     ["[ERROR] a.json: Ingredient must have 'item', 'tag', or 'fluid' field"]
     [] 0 []) /\
  validate_ingredient "a.json" [("item", JStr "x"); ("tag", JStr "y")] (init "recipes") =
  (Ok tt,
   mkValidator "recipes" []
     ["[WARNING] a.json: Ingredient has multiple type fields (item/tag/fluid)"]
     0 []) /\
  validate_ingredient "a.json" [("fluid", JStr "x")] (init "recipes") =
  (Ok tt, init "recipes").
Proof.
  destruct (ingredient_shape "a.json") as (_ & _ & Hnone & Hmany & Hone & _).
  split; [|split].
  - apply (Hnone [("count", JInt 2)] (init "recipes")); reflexivity.
  - apply (Hmany [("item", JStr "x"); ("tag", JStr "y")] (init "recipes")).
    left; split; reflexivity.
  - apply (Hone [("fluid", JStr "x")] (init "recipes")). reflexivity.
Defined.

(** ** Results *)

Section Results.

Variable py_str : json -> string.

Lemma validate_result_run path d self :
  validate_result py_str path (JDict d) self =
  (Ok tt, extend self (mkDelta (result_errors py_str path d) [] 0 [])).
Proof.
  unfold result_errors.
  unfold validate_result, bind, ret, lift, add_error, Py.dict_in, Py.subscript.
  destruct self.
  destruct (Py.dict_get "item" d), (Py.dict_get "fluid" d);
    cbn [orb negb];
    destruct (Py.dict_get "count" d) as [count|];
    try destruct (Py.is_number count && Py.le_zero count);
    destruct (Py.dict_get "amount" d) as [amount|];
    try destruct (Py.is_number amount && Py.le_zero amount);
    delta_norm; reflexivity.
Qed.

(** C6: a result mapping without ['item'] and without ['fluid'] gets an
    error; a ['count'] that is a number not above zero gets an error; an
    ['amount'] that is a number not above zero gets an error of its own,
    so one result may get both; these are all the diagnostics of a result
    mapping, in this order; an empty sequence of results gets a warning
    and no error. *)
Theorem result_shape path :
  (forall d self,
      Py.dict_in "item" d = false -> Py.dict_in "fluid" d = false ->
      In ("[ERROR] " ++ path ++ ": Result must have 'item' or 'fluid' field")
         (errors (snd (validate_result py_str path (JDict d) self)))) /\
  (forall d count self,
      Py.dict_get "count" d = Some count ->
      Py.is_number count = true -> Py.le_zero count = true ->
      In ("[ERROR] " ++ path ++ ": Result count must be positive, got: "
          ++ py_str count)
         (errors (snd (validate_result py_str path (JDict d) self)))) /\
  (forall d amount self,
      Py.dict_get "amount" d = Some amount ->
      Py.is_number amount = true -> Py.le_zero amount = true ->
      In ("[ERROR] " ++ path ++ ": Result amount must be positive, got: "
          ++ py_str amount)
         (errors (snd (validate_result py_str path (JDict d) self)))) /\
  (forall d self,
      validate_result py_str path (JDict d) self =
      (Ok tt,
       mkValidator (recipes_path self)
         (app (errors self)
         (app (if Py.dict_in "item" d || Py.dict_in "fluid" d then []
               else ["[ERROR] " ++ path
                     ++ ": Result must have 'item' or 'fluid' field"])
         (app match Py.dict_get "count" d with
              | Some count =>
                  if Py.is_number count && Py.le_zero count
                  then ["[ERROR] " ++ path
                        ++ ": Result count must be positive, got: " ++ py_str count]
                  else []
              | None => []
              end
              match Py.dict_get "amount" d with
              | Some amount =>
                  if Py.is_number amount && Py.le_zero amount
                  then ["[ERROR] " ++ path
                        ++ ": Result amount must be positive, got: " ++ py_str amount]
                  else []
              | None => []
              end)))
         (warnings self) (validated_files self) (stdout self))) /\
  (forall self,
      validate_results py_str path (JList []) self =
      (Ok tt,
       mkValidator (recipes_path self) (errors self)
         (append (warnings self)
                 ("[WARNING] " ++ path ++ ": Results array is empty"))
         (validated_files self) (stdout self))).
Proof.
  split; [|split; [|split; [|split]]].
  - intros d self Hi Hf. rewrite validate_result_run. unfold result_errors.
    rewrite Hi, Hf.
    cbn [snd extend errors d_errors orb]. apply in_or_app. right.
    apply in_or_app. left. now left.
  - intros d count self Hc Hn Hz. rewrite validate_result_run.
    unfold result_errors. rewrite Hc, Hn, Hz.
    cbn [snd extend errors d_errors andb]. apply in_or_app. right.
    apply in_or_app. right. apply in_or_app. left. now left.
  - intros d amount self Ha Hn Hz. rewrite validate_result_run.
    unfold result_errors. rewrite Ha, Hn, Hz.
    cbn [snd extend errors d_errors andb]. apply in_or_app. right.
    apply in_or_app. right. apply in_or_app. right. now left.
  - intros d self. rewrite validate_result_run.
    unfold extend, result_errors; cbn [d_errors d_warnings d_files d_stdout].
    now rewrite !app_nil_r, Nat.add_0_r.
  - intros self. reflexivity.
Qed.

End Results.

Lemma result_shape_witness :
  In "[ERROR] a.json: Result must have 'item' or 'fluid' field"
     (errors (snd (validate_result example_str "a.json"
                     (JDict [("count", JInt 0); ("amount", JInt (-5))])
                     (init "recipes")))) /\
  In "[ERROR] a.json: Result count must be positive, got: <int>"
     (errors (snd (validate_result example_str "a.json"
                     (JDict [("count", JInt 0); ("amount", JInt (-5))])
                     (init "recipes")))) /\
  In "[ERROR] a.json: Result amount must be positive, got: <int>"
     (errors (snd (validate_result example_str "a.json"
                     (JDict [("count", JInt 0); ("amount", JInt (-5))])
                     (init "recipes")))).
Proof.
  destruct (result_shape example_str "a.json") as (Hmissing & Hcount & Hamount & _).
  split; [|split].
  - apply (Hmissing [("count", JInt 0); ("amount", JInt (-5))] (init "recipes"));
      reflexivity.
  - apply (Hcount [("count", JInt 0); ("amount", JInt (-5))] (JInt 0) (init "recipes"));
      reflexivity.
  - apply (Hamount [("count", JInt 0); ("amount", JInt (-5))] (JInt (-5))
             (init "recipes")); reflexivity.
Defined.

(** Scenario C: a result with an item and a count of zero gets one error,
    for the count. *)
Example result_count_zero :
  validate_result example_str "a.json"
    (JDict [("item", JStr "x"); ("count", JInt 0)]) (init "recipes") =
  (Ok tt,
   mkValidator "recipes"
     ["[ERROR] a.json: Result count must be positive, got: <int>"] [] 0 []).
Proof. reflexivity. Qed.

(** ** When a count or an amount is an error *)

Lemma string_app_inv_head (s a b : string) : s ++ a = s ++ b -> a = b.
Proof.
  induction s as [|c s IH]; simpl; intros H; [exact H|].
  injection H as H. auto.
Qed.

Lemma line_inv (path a b : string) :
  "[ERROR] " ++ path ++ a = "[ERROR] " ++ path ++ b -> a = b.
Proof. intros H. now apply string_app_inv_head, string_app_inv_head in H. Qed.

(** C10: the error about ['count'] is there exactly when the field is
    present, its value is a number (a boolean is one, [false] being zero) and
    the value is not above zero; the same for ['amount']; a result never gets
    a warning; and a result that has an item or a fluid and whose count and
    amount, where present, are not numbers gets no diagnostic at all. *)
Theorem count_amount_errors py_str path d self :
  exists new,
    validate_result py_str path (JDict d) self =
    (Ok tt,
     mkValidator (recipes_path self) (app (errors self) new)
                 (warnings self) (validated_files self) (stdout self)) /\
    ((exists e, In e new /\ about_count path e) <->
     (exists count, Py.dict_get "count" d = Some count /\
                    Py.is_number count = true /\ Py.le_zero count = true)) /\
    ((exists e, In e new /\ about_amount path e) <->
     (exists amount, Py.dict_get "amount" d = Some amount /\
                     Py.is_number amount = true /\ Py.le_zero amount = true)) /\
    (Py.is_number (JBool false) = true /\ Py.le_zero (JBool false) = true /\
     Py.le_zero (JBool true) = false) /\
    (Py.dict_in "item" d || Py.dict_in "fluid" d = true ->
     (forall count, Py.dict_get "count" d = Some count ->
                    Py.is_number count = false) ->
     (forall amount, Py.dict_get "amount" d = Some amount ->
                     Py.is_number amount = false) ->
     new = []).
Proof.
  exists (result_errors py_str path d). split.
  { rewrite validate_result_run.
    unfold extend; cbn [d_errors d_warnings d_files d_stdout].
    now rewrite !app_nil_r, Nat.add_0_r. }
  unfold result_errors.
  split; [|split; [|split]].
  - split.
    + intros (e & Hin & got & He). subst e.
      apply in_app_or in Hin as [Hin|Hin].
      { destruct (Py.dict_in "item" d || Py.dict_in "fluid" d); [easy|].
        destruct Hin as [Hin|[]]. apply line_inv in Hin. discriminate Hin. }
      apply in_app_or in Hin as [Hin|Hin].
      * destruct (Py.dict_get "count" d) as [count|]; [|easy].
        exists count. split; [reflexivity|].
        destruct (Py.is_number count), (Py.le_zero count); easy.
      * destruct (Py.dict_get "amount" d) as [amount|]; [|easy].
        destruct (Py.is_number amount && Py.le_zero amount); [|easy].
        destruct Hin as [Hin|[]]. apply line_inv in Hin. discriminate Hin.
    + intros (count & -> & -> & ->). eexists. split.
      * apply in_or_app. right. apply in_or_app. left. now left.
      * now exists (py_str count).
  - split.
    + intros (e & Hin & got & He). subst e.
      apply in_app_or in Hin as [Hin|Hin].
      { destruct (Py.dict_in "item" d || Py.dict_in "fluid" d); [easy|].
        destruct Hin as [Hin|[]]. apply line_inv in Hin. discriminate Hin. }
      apply in_app_or in Hin as [Hin|Hin].
      * destruct (Py.dict_get "count" d) as [count|]; [|easy].
        destruct (Py.is_number count && Py.le_zero count); [|easy].
        destruct Hin as [Hin|[]]. apply line_inv in Hin. discriminate Hin.
      * destruct (Py.dict_get "amount" d) as [amount|]; [|easy].
        exists amount. split; [reflexivity|].
        destruct (Py.is_number amount), (Py.le_zero amount); easy.
    + intros (amount & -> & -> & ->). eexists. split.
      * apply in_or_app. right. apply in_or_app. right. now left.
      * now exists (py_str amount).
  - repeat split.
  - intros -> Hc Ha.
    destruct (Py.dict_get "count" d) as [count|];
      [rewrite (Hc count eq_refl)|];
      (destruct (Py.dict_get "amount" d) as [amount|];
       [rewrite (Ha amount eq_refl)|]); reflexivity.
Qed.

Lemma count_amount_errors_witness :
  validate_result example_str "a.json"
    (JDict [("item", JStr "x"); ("count", JStr "many")]) (init "recipes") =
  (Ok tt, init "recipes").
Proof.
  destruct (count_amount_errors example_str "a.json"
              [("item", JStr "x"); ("count", JStr "many")] (init "recipes"))
    as (new & Hrun & _ & _ & _ & Hnone).
  rewrite Hrun, Hnone; [reflexivity | reflexivity | |].
  - intros count H. injection H as <-. reflexivity.
  - intros amount H. discriminate H.
Defined.

(** A count of [false] is an error: a boolean is a number, and [false] is
    zero. *)
Example result_count_false :
  validate_result example_str "a.json"
    (JDict [("item", JStr "x"); ("count", JBool false)]) (init "recipes") =
  (Ok tt,
   mkValidator "recipes"
     ["[ERROR] a.json: Result count must be positive, got: <bool>"] [] 0 []).
Proof. reflexivity. Qed.

(** ** The pattern and its keys *)

Lemma set_in_In x s : Py.set_in x s = true <-> In x s.
Proof.
  unfold Py.set_in. rewrite existsb_exists. split.
  - intros (y & Hy & E). apply String.eqb_eq in E. now subst.
  - intros H. exists x. split; [exact H | apply String.eqb_refl].
Qed.

Lemma In_set_add c x s : In c (Py.set_add x s) <-> c = x \/ In c s.
Proof.
  unfold Py.set_add, append.
  destruct (Py.set_in x s) eqn:E.
  - apply set_in_In in E. split; [auto | intros [->|H]; auto].
  - rewrite in_app_iff. simpl. intuition auto.
Qed.

Lemma In_chars_length c row : In c (Py.chars row) -> String.length c = 1.
Proof.
  induction row as [|a row IH]; simpl; [easy|].
  intros [<-|H]; auto.
Qed.

Lemma In_add_row_keys c row used :
  In c (add_row_keys used row) <->
  In c used \/ (In c (Py.chars row) /\ c <> " ").
Proof.
  unfold add_row_keys. revert used.
  induction (Py.chars row) as [|x l IH]; intros used; simpl.
  - tauto.
  - rewrite IH. destruct (String.eqb_spec x " ") as [->|Hx].
    + intuition congruence.
    + rewrite In_set_add. intuition congruence.
Qed.

Lemma In_used_keys_from c rows used :
  In c (used_keys_from used rows) <->
  In c used \/
  exists row, In (JStr row) rows /\ In c (Py.chars row) /\ c <> " ".
Proof.
  unfold used_keys_from. revert used.
  induction rows as [|row rows IH]; intros used; simpl.
  - split; [auto | intros [H|(row & [] & _)]; auto].
  - rewrite IH. clear IH.
    assert (Hrest : forall P : Prop,
               (P \/ exists r, In (JStr r) rows /\ In c (Py.chars r) /\ c <> " ") ->
               P \/ exists r, (row = JStr r \/ In (JStr r) rows)
                              /\ In c (Py.chars r) /\ c <> " ").
    { intros P [H|(r & H1 & H2)]; [auto | right; exists r; auto]. }
    destruct row as [| | | |r0| |];
      try (split; [apply Hrest
                  | intros [H|(r & [H|H] & H2)];
                    [auto | discriminate H | right; exists r; auto]]).
    rewrite In_add_row_keys. split.
    + intros [[H|H]|H]; [auto | right; exists r0; tauto | auto].
    + intros [H|(r & [H|H] & H2)];
        [auto | injection H as ->; tauto | right; exists r; auto].
Qed.

Lemma writes_rows path rows used :
  writes
    (for_fold rows
       (fun used_keys row =>
          match row with
          | JStr row =>
              ret (fold_left (fun used char =>
                                if String.eqb char " " then used
                                else Py.set_add char used)
                             (Py.chars row) used_keys)
          | _ => add_error path "Pattern row must be a string" ;; ret used_keys
          end) used)
    (Ok (used_keys_from used rows))
    (mkDelta
       (flat_map (fun row =>
                    match row with
                    | JStr _ => []
                    | _ => ["[ERROR] " ++ path ++ ": Pattern row must be a string"]
                    end) rows)
       [] 0 []).
Proof.
  revert used; induction rows as [|row rows IH]; intros used.
  - apply writes_ret.
  - destruct row as [| | | |r| |]; cbn [for_fold];
      try (eapply writes_bind_eq;
           [ eapply writes_bind_eq;
             [apply writes_add_error | apply writes_ret | reflexivity]
           | apply IH | reflexivity ]).
    eapply writes_bind_eq; [apply writes_ret | apply IH | reflexivity].
Qed.

Lemma writes_unused_keys path used keys :
  writes
    (for_each keys (fun defined_key =>
       if (String.length defined_key =? 1)%nat && negb (Py.set_in defined_key used)
       then add_warning path ("Key '" ++ defined_key
                              ++ "' is defined but never used in pattern")
       else ret tt))
    (Ok tt)
    (mkDelta []
       (flat_map (fun defined_key =>
                    if (String.length defined_key =? 1)%nat
                       && negb (Py.set_in defined_key used)
                    then ["[WARNING] " ++ path ++ ": Key '" ++ defined_key
                          ++ "' is defined but never used in pattern"]
                    else []) keys)
       0 []).
Proof.
  induction keys as [|k keys IH]; simpl.
  - apply writes_ret.
  - refine (writes_bind_ok _ _ tt
              (mkDelta [] (if (String.length k =? 1)%nat && negb (Py.set_in k used)
                           then [_] else []) 0 []) _ _ _ IH).
    destruct ((String.length k =? 1)%nat && negb (Py.set_in k used)).
    + apply writes_add_warning.
    + apply writes_ret.
Qed.

(** [validate_pattern] on rows that are there and a key that is a mapping,
    or is missing. *)
Lemma validate_pattern_writes set_iter path recipe row rows kd :
  Py.dict_get "pattern" recipe = Some (JList (row :: rows)) ->
  Py.dict_get_default "key" (JDict []) recipe = JDict kd ->
  writes (validate_pattern set_iter path recipe) (Ok tt)
         (pattern_delta set_iter path (row :: rows) kd).
Proof.
  intros Hpattern Hkey. unfold validate_pattern, Py.subscript.
  rewrite Hpattern, Hkey.
  eapply writes_bind_eq.
  { apply writes_lift. }
  { cbn [Py.truth Py.nonempty negb].
    eapply writes_bind_eq.
    { apply writes_lift. }
    { eapply writes_bind_eq.
      { apply writes_rows. }
      { eapply writes_bind_eq.
        { apply (writes_undefined_keys path (JDict kd) (fun c => Py.dict_in c kd)).
          intros c; reflexivity. }
        { eapply writes_bind_eq.
          { apply writes_lift. }
          { apply writes_unused_keys. }
          { reflexivity. } }
        { reflexivity. } }
      { reflexivity. } }
    { reflexivity. } }
  unfold pattern_delta. delta_norm. reflexivity.
Qed.

(** The rule set for mechanical crafting runs [validate_pattern] on a
    pattern that is a sequence, between the check of the key and the checks
    of the result and of [acceptMirrored], which add what they add whatever
    the pattern check did. *)
Lemma mechanical_crafting_runs_pattern py_str set_iter path recipe rows :
  Py.dict_get "pattern" recipe = Some (JList rows) ->
  exists d1 d2, forall self,
    validate_mechanical_crafting py_str set_iter path recipe self =
    match validate_pattern set_iter path recipe (extend self d1) with
    | (Ok _, self') => (Ok tt, extend self' d2)
    | (Raise e, self') => (Raise e, self')
    end.
Proof.
  intros Hpattern. unfold validate_mechanical_crafting, Py.dict_in, Py.subscript.
  rewrite Hpattern. cbn [negb].
  match goal with
  | |- exists d1 d2, forall self,
        bind ?K (fun _ => bind ?P (fun _ => ?R)) self = _ =>
      assert (HK : exists d1, writes K (Ok tt) d1);
      [| assert (HR : exists d2, writes R (Ok tt) d2) ]
  end.
  - destruct (Py.dict_get "key" recipe) as [key|]; cbn [negb].
    + destruct key; eexists;
        (eapply writes_bind_eq;
         [ apply writes_lift
         | cbn [Py.is_dict negb]; first [apply writes_ret | apply writes_add_error]
         | reflexivity ]).
    + eexists. apply writes_add_error.
  - assert (Hres : exists d, writes
               (if negb match Py.dict_get "result" recipe with
                        | Some _ => true | None => false end
                then add_error path "Mechanical crafting missing 'result' field"
                else result <- lift match Py.dict_get "result" recipe with
                                    | Some v => Ok v
                                    | None => Raise (KeyError ("'" ++ "result" ++ "'"))
                                    end ;;
                     validate_result py_str path result) (Ok tt) d).
    { destruct (Py.dict_get "result" recipe) as [result|]; cbn [negb].
      - destruct result; eexists;
          (eapply writes_bind_eq;
           [ apply writes_lift
           | first [ apply writes_add_error
                   | intros self; apply validate_result_run ]
           | reflexivity ]).
      - eexists. apply writes_add_error. }
    destruct Hres as [dr Hres].
    destruct (Py.dict_get "acceptMirrored" recipe) as [accept|].
    + destruct accept; eexists;
        (eapply writes_bind_eq;
         [ apply Hres
         | eapply writes_bind_eq;
           [ apply writes_lift
           | cbn [Py.is_bool negb]; first [apply writes_ret | apply writes_add_error]
           | reflexivity ]
         | reflexivity ]).
    + eexists. eapply writes_bind_eq; [apply Hres | apply writes_ret | reflexivity].
  - destruct HK as [d1 HK], HR as [d2 HR]. exists d1, d2. intros self.
    unfold bind at 1. rewrite HK. unfold bind at 1.
    unfold bind at 1. unfold lift at 1. cbn [Py.is_list negb].
    destruct (validate_pattern set_iter path recipe (extend self d1))
      as [[[]|e] self']; [apply HR | reflexivity].
Qed.

(** C4: for a mechanical-crafting recipe whose ['pattern'] is a sequence,
    which is when the rule set runs the pattern check between its other
    checks: an empty sequence gets one error from the pattern check and
    nothing else, whatever the key is; otherwise, with a key that is a
    mapping (the empty one when the field is missing), every character other
    than the blank of a row that is a string and that is not a key of the
    mapping gets an error naming it, and every key of one character that
    occurs in no such row gets a warning naming it. *)
Theorem pattern_key_cross_check py_str set_iter path recipe rows :
  (forall s, Permutation (set_iter s) s) ->
  Py.dict_get "pattern" recipe = Some (JList rows) ->
  (rows = [] ->
   forall self,
     validate_pattern set_iter path recipe self =
     (Ok tt,
      mkValidator (recipes_path self)
        (append (errors self) ("[ERROR] " ++ path ++ ": Pattern array is empty"))
        (warnings self) (validated_files self) (stdout self))) /\
  (rows <> [] ->
   forall kd,
     Py.dict_get_default "key" (JDict []) recipe = JDict kd ->
     forall self, exists self',
       validate_pattern set_iter path recipe self = (Ok tt, self') /\
       (forall row char,
           In (JStr row) rows -> In char (Py.chars row) -> char <> " " ->
           Py.dict_in char kd = false ->
           In ("[ERROR] " ++ path ++ ": Pattern uses key '" ++ char
               ++ "' but it's not defined in 'key' object") (errors self')) /\
       (forall defined_key,
           In defined_key (Py.dict_keys kd) -> String.length defined_key = 1 ->
           (forall row, In (JStr row) rows -> ~ In defined_key (Py.chars row)) ->
           In ("[WARNING] " ++ path ++ ": Key '" ++ defined_key
               ++ "' is defined but never used in pattern") (warnings self'))) /\
  (exists before after, forall self,
      validate_mechanical_crafting py_str set_iter path recipe self =
      match validate_pattern set_iter path recipe (extend self before) with
      | (Ok _, self') => (Ok tt, extend self' after)
      | (Raise e, self') => (Raise e, self')
      end).
Proof.
  intros Hperm Hpattern.
  split; [|split].
  - intros -> self.
    unfold validate_pattern, bind, lift, Py.subscript. rewrite Hpattern.
    reflexivity.
  - intros Hrows kd Hkey self.
    destruct rows as [|row0 rows0]; [congruence|]. clear Hrows.
    eexists. split; [apply (validate_pattern_writes _ _ _ _ _ _ Hpattern Hkey)|].
    unfold pattern_delta, extend;
      cbn [errors warnings d_errors d_warnings].
    split.
    + intros row char Hrow Hchar Hblank Hundef.
      apply in_or_app; right. apply in_or_app; right.
      apply in_flat_map. exists char. split.
      * apply (Permutation_in _ (Permutation_sym (Hperm _))).
        apply In_used_keys_from. right. exists row. auto.
      * rewrite Hundef. now left.
    + intros defined_key Hin Hlen Hunused.
      apply in_or_app; right.
      apply in_flat_map. exists defined_key. split; [exact Hin|].
      rewrite Hlen. cbn [Nat.eqb andb].
      destruct (Py.set_in defined_key (used_keys_from [] (row0 :: rows0))) eqn:E.
      * apply set_in_In, In_used_keys_from in E.
        destruct E as [[]|(row & Hrow & Hchar & _)].
        now apply Hunused in Hrow.
      * now left.
  - exact (mechanical_crafting_runs_pattern py_str set_iter path recipe rows Hpattern).
Qed.

Lemma pattern_key_cross_check_witness :
  exists self',
    validate_pattern insertion_order "a.json"
      [("pattern", JList [JStr "A B"; JStr " A"]);
       ("key", JDict [("A", JDict [("item", JStr "x")]);
                      ("C", JDict [("item", JStr "y")])])]
      (init "recipes") = (Ok tt, self') /\
    In "[ERROR] a.json: Pattern uses key 'B' but it's not defined in 'key' object"
       (errors self') /\
    In "[WARNING] a.json: Key 'C' is defined but never used in pattern"
       (warnings self').
Proof.
  destruct (pattern_key_cross_check example_str insertion_order "a.json"
              [("pattern", JList [JStr "A B"; JStr " A"]);
               ("key", JDict [("A", JDict [("item", JStr "x")]);
                              ("C", JDict [("item", JStr "y")])])]
              [JStr "A B"; JStr " A"]
              (fun s => Permutation_refl s) eq_refl)
    as (_ & Hrows & _).
  destruct (Hrows ltac:(discriminate)
              [("A", JDict [("item", JStr "x")]); ("C", JDict [("item", JStr "y")])]
              eq_refl (init "recipes"))
    as (self' & Hrun & Herr & Hwarn).
  exists self'. split; [exact Hrun|]. split.
  - apply (Herr "A B" "B"); simpl; auto; discriminate.
  - apply (Hwarn "C"); simpl; auto.
    intros row [H|[H|[]]]; injection H as <-; simpl; intuition discriminate.
Defined.

(** Scenario F, on a whole file: an empty pattern with a key and a result
    in order gets the one error. *)
Example empty_pattern_file :
  validate_recipe_file example_str insertion_order
    (mkFile "a.json"
       (Ok (JDict [("type", JStr "create:mechanical_crafting");
                   ("key", JDict [("A", JDict [("item", JStr "x")])]);
                   ("pattern", JList []);
                   ("result", JDict [("item", JStr "y")])])))
    (init "recipes") =
  (Ok tt,
   mkValidator "recipes" ["[ERROR] a.json: Pattern array is empty"] [] 1
     ["Validating: a.json"]).
Proof. reflexivity. Qed.

(** ** The checks count no file and print nothing *)

Lemma quiet_ret {A} (a : A) : quiet (ret a).
Proof. now intros self. Qed.

Lemma quiet_lift {A} (o : outcome A) : quiet (lift o).
Proof. now intros self. Qed.

Lemma quiet_add_error path message : quiet (add_error path message).
Proof. now intros self. Qed.

Lemma quiet_add_warning path message : quiet (add_warning path message).
Proof. now intros self. Qed.

Lemma quiet_bind {A B} (m : M A) (k : A -> M B) :
  quiet m -> (forall a, quiet (k a)) -> quiet (bind m k).
Proof.
  intros Hm Hk self. unfold bind.
  specialize (Hm self). destruct (m self) as [[a|e] self']; simpl in *.
  - destruct (Hk a self') as [Hf Ho]. now rewrite Hf, Ho.
  - exact Hm.
Qed.

Lemma quiet_try_except {A} (m : M A) (handler : exn -> M A) :
  quiet m -> (forall e, quiet (handler e)) -> quiet (try_except m handler).
Proof.
  intros Hm Hh self. unfold try_except.
  specialize (Hm self). destruct (m self) as [[a|e] self']; simpl in *.
  - exact Hm.
  - destruct (Hh e self') as [Hf Ho]. now rewrite Hf, Ho.
Qed.

Lemma quiet_for_each {A} (l : list A) (body : A -> M unit) :
  (forall x, quiet (body x)) -> quiet (for_each l body).
Proof.
  intros Hb; induction l as [|x l IH]; simpl.
  - apply quiet_ret.
  - apply quiet_bind; auto.
Qed.

Lemma quiet_for_fold {A S} (l : list A) (body : S -> A -> M S) :
  (forall s x, quiet (body s x)) -> forall s, quiet (for_fold l body s).
Proof.
  intros Hb; induction l as [|x l IH]; intros s; simpl.
  - apply quiet_ret.
  - apply quiet_bind; auto.
Qed.

Create HintDb quiet discriminated.
#[local] Hint Resolve quiet_ret quiet_lift quiet_add_error quiet_add_warning : quiet.

Ltac quiet_step :=
  lazymatch goal with
  | |- quiet (bind _ _) => apply quiet_bind; [| intros ?]
  | |- quiet (for_each _ _) => apply quiet_for_each; intros ?
  | |- quiet (for_fold _ _ _) => apply quiet_for_fold; intros ? ?
  | |- quiet (if ?b then _ else _) => destruct b
  | |- quiet (match ?x with _ => _ end) => destruct x
  | |- _ => solve [auto with quiet]
  end.

Ltac quiet_auto := repeat quiet_step.

Section Quiet.

Variable py_str : json -> string.
Variable set_iter : Py.set -> list string.

Lemma quiet_validators :
  Forall (fun entry => forall path recipe, quiet (snd entry path recipe))
         (validators py_str set_iter).
Proof.
  unfold validators.
  repeat (constructor; [intros path recipe; cbn [snd] |]).
  - unfold validate_mechanical_crafting, validate_pattern, validate_result.
    quiet_auto.
  - unfold validate_cutting, validate_ingredients, validate_ingredient,
      validate_results, validate_result.
    quiet_auto.
  - unfold validate_mixing, validate_ingredients, validate_ingredient,
      validate_results, validate_result.
    quiet_auto.
  - unfold validate_sequenced_assembly. quiet_auto.
  - unfold validate_filling. quiet_auto.
  - unfold validate_emptying. quiet_auto.
  - unfold validate_pressing. quiet_auto.
  - unfold validate_deploying. quiet_auto.
  - unfold validate_vanilla_crafting. quiet_auto.
  - unfold validate_vanilla_crafting. quiet_auto.
  - constructor.
Qed.

Lemma quiet_get (table : list (string * rule_set)) k :
  Forall (fun entry => forall path recipe, quiet (snd entry path recipe)) table ->
  match Py.get table k with
  | Ok (Some validator) => forall path recipe, quiet (validator path recipe)
  | _ => True
  end.
Proof.
  intros Ht. destruct k; simpl; auto.
  induction Ht as [|[k v] table Hv Ht IH]; simpl; auto.
  destruct (String.eqb s k); simpl; auto.
Qed.

Lemma quiet_check_recipe file :
  quiet (check_recipe py_str (validators py_str set_iter) file).
Proof.
  unfold check_recipe.
  apply quiet_bind; [apply quiet_lift | intros recipe].
  destruct recipe; try apply quiet_add_error.
  destruct (negb (Py.dict_in "type" d)); [apply quiet_add_error|].
  apply quiet_bind; [apply quiet_lift | intros recipe_type].
  pose proof (quiet_get (validators py_str set_iter) recipe_type quiet_validators) as H.
  destruct (Py.get (validators py_str set_iter) recipe_type) as [[validator|]|e].
  - apply H.
  - apply quiet_add_warning.
  - exact (quiet_lift (Raise e)).
Qed.

(** A file is counted once and announced once, whatever is in it. *)
Lemma validate_recipe_file_counts file self :
  validated_files (snd (validate_recipe_file py_str set_iter file self)) =
  validated_files self + 1 /\
  stdout (snd (validate_recipe_file py_str set_iter file self)) =
  append (stdout self) ("Validating: " ++ relative_path file).
Proof.
  assert (E : validate_recipe_file py_str set_iter file self =
              try_except (check_recipe py_str (validators py_str set_iter) file)
                (fun e =>
                   match e with
                   | JSONDecodeError _ =>
                       add_error (relative_path file)
                         ("Failed to parse JSON: " ++ exn_str e)
                   | _ => add_error (relative_path file)
                            ("Unexpected error: " ++ exn_str e)
                   end)
                (mkValidator (recipes_path self) (errors self) (warnings self)
                   (validated_files self + 1)
                   (append (stdout self) ("Validating: " ++ relative_path file))))
    by reflexivity.
  rewrite E.
  match goal with
  | |- context [try_except ?m ?h ?s] =>
      destruct (quiet_try_except m h (quiet_check_recipe file)
                  ltac:(intros e; destruct e; apply quiet_add_error) s) as [Hf Ho]
  end.
  now rewrite Hf, Ho.
Qed.

Lemma file_delta_counts file :
  d_files (file_delta py_str set_iter file) = 1 /\
  d_stdout (file_delta py_str set_iter file) = ["Validating: " ++ relative_path file].
Proof.
  unfold file_delta. cbn [d_files d_stdout].
  destruct (validate_recipe_file_counts file (init "")) as [Hf Ho].
  now rewrite Hf, Ho.
Qed.

Lemma files_delta_counts files :
  d_files (files_delta py_str set_iter files) = List.length files /\
  d_stdout (files_delta py_str set_iter files) =
  map (fun file => "Validating: " ++ relative_path file) files.
Proof.
  induction files as [|file files [IHf IHo]]; [now split|].
  destruct (file_delta_counts file) as [Hf Ho].
  cbn [files_delta fold_right dapp d_files d_stdout List.length map].
  fold (files_delta py_str set_iter files).
  now rewrite Hf, Ho, IHf, IHo.
Qed.

Lemma files_delta_app before after :
  files_delta py_str set_iter (before ++ after) =
  dapp (files_delta py_str set_iter before) (files_delta py_str set_iter after).
Proof.
  induction before as [|file before IH]; simpl.
  - now destruct (files_delta py_str set_iter after).
  - unfold files_delta in *. rewrite IH.
    unfold dapp; simpl. f_equal; auto using app_assoc, Nat.add_assoc.
Qed.

End Quiet.

(** ** A failure stays in its file *)



(** Scenario E: a file that does not parse between two that do. *)
Example malformed_file_between_others :
  main example_str insertion_order
    (mkDirectory true
       [mkFile "a.json" (Ok (JDict [("type", JStr "minecraft:crafting_shaped")]));
        mkFile "b.json" (Raise (JSONDecodeError "Expecting value: line 1 column 1 (char 0)"));
        mkFile "c.json" (Ok (JDict [("type", JStr "create:milling")]))]) =
  (1%Z,
   mkValidator default_recipes_path
     ["[ERROR] a.json: Vanilla crafting missing 'result' field";
      "[ERROR] b.json: Failed to parse JSON: Expecting value: line 1 column 1 (char 0)"]
     ["[WARNING] c.json: Unknown recipe type: create:milling"]
     3
     ["=== Validating Recipes ==="; "Found 3 recipe files";
      "Validating: a.json"; "Validating: b.json"; "Validating: c.json";
      newline ++ "=== Warnings ===";
      "[WARNING] c.json: Unknown recipe type: create:milling";
      newline ++ "=== Errors ===";
      "[ERROR] a.json: Vanilla crafting missing 'result' field";
      "[ERROR] b.json: Failed to parse JSON: Expecting value: line 1 column 1 (char 0)";
      newline ++ "❌ Found 2 error(s) in recipes"]).
Proof. reflexivity. Qed.

(** ** Two runs over the same directory *)


(** * Further properties *)

(** ** Loops that add per element *)

Lemma writes_for_each_flat {A} (l : list A) (body : A -> M unit)
      (fe fw : A -> list string) :
  (forall x, writes (body x) (Ok tt) (mkDelta (fe x) (fw x) 0 [])) ->
  writes (for_each l body) (Ok tt) (mkDelta (flat_map fe l) (flat_map fw l) 0 []).
Proof.
  intros Hbody; induction l as [|x l IH]; simpl.
  - apply writes_ret.
  - eapply writes_bind_eq; [apply Hbody | apply IH | reflexivity].
Qed.

(** From what a computation writes to the validator it leaves. *)
Lemma writes_run {A} (m : M A) r es ws self :
  writes m r (mkDelta es ws 0 []) ->
  m self =
  (r, mkValidator (recipes_path self) (app (errors self) es)
        (app (warnings self) ws) (validated_files self) (stdout self)).
Proof.
  intros H. rewrite H. unfold extend; cbn [d_errors d_warnings d_files d_stdout].
  now rewrite app_nil_r, Nat.add_0_r.
Qed.

(** ** Ingredients and results of any shape *)

Lemma writes_validate_ingredient path d :
  writes (validate_ingredient path d) (Ok tt)
         (mkDelta (ingredient_errors path (JDict d))
                  (ingredient_warnings path (JDict d)) 0 []).
Proof. intros self. apply validate_ingredient_run. Qed.

Lemma writes_validate_ingredients path ingredients :
  writes (validate_ingredients path ingredients) (Ok tt)
         (mkDelta (ingredients_errors path ingredients)
                  (ingredients_warnings path ingredients) 0 []).
Proof.
  destruct ingredients as [| | | | |l|d];
    try apply writes_add_error; [|apply writes_validate_ingredient].
  unfold validate_ingredients.
  eapply writes_bind_eq.
  - instantiate (2 := tt).
    instantiate (1 := mkDelta [] (if Py.nonempty l then []
                                   else ["[WARNING] " ++ path
                                         ++ ": Ingredients array is empty"]) 0 []).
    destruct l; cbn [Py.truth Py.nonempty negb];
      [apply writes_add_warning | apply writes_ret].
  - apply (writes_for_each_flat l _ (ingredient_errors path)
             (ingredient_warnings path)).
    intros x. destruct x; try apply writes_add_error.
    apply writes_validate_ingredient.
  - reflexivity.
Qed.

Lemma writes_validate_result py_str path d :
  writes (validate_result py_str path (JDict d)) (Ok tt)
         (mkDelta (result_errors py_str path d) [] 0 []).
Proof. intros self. apply validate_result_run. Qed.

Lemma writes_validate_results py_str path results :
  writes (validate_results py_str path (JList results)) (Ok tt)
         (mkDelta (results_errors py_str path results)
                  (results_warnings path results) 0 []).
Proof.
  unfold validate_results, results_warnings.
  eapply writes_bind_eq.
  - instantiate (2 := tt).
    instantiate (1 := mkDelta [] (if Py.nonempty results then []
                                   else ["[WARNING] " ++ path
                                         ++ ": Results array is empty"]) 0 []).
    destruct results; cbn [Py.truth Py.nonempty negb];
      [apply writes_add_warning | apply writes_ret].
  - eapply writes_bind_eq; [apply writes_lift | | reflexivity].
    cbv beta.
    apply (writes_for_each_flat results _
             (fun result =>
                match result with
                | JDict d => result_errors py_str path d
                | _ => ["[ERROR] " ++ path ++ ": Result must be a JSON object"]
                end)
             (fun _ => [])).
    intros x. destruct x; try apply writes_add_error.
    apply writes_validate_result.
  - assert (Hnil : flat_map (fun _ : json => @nil string) results = [])
      by (clear; induction results; simpl; auto).
    unfold results_errors, dapp, dnil; cbn [d_errors d_warnings d_files d_stdout app].
    now rewrite Hnil, app_nil_r.
Qed.

(** Composition of what is written, with the sum left to be computed. *)
Lemma writes_conv {A} (m : M A) r d d' :
  writes m r d' -> d = d' -> writes m r d.
Proof. now intros H ->. Qed.

Ltac writes_go :=
  cbv beta;
  cbn [negb Py.is_number Py.is_list Py.is_dict Py.is_bool];
  lazymatch goal with
  | |- writes (bind _ _) _ _ =>
      eapply writes_bind_eq; [writes_go | writes_go | reflexivity]
  | |- writes (ret _) _ _ => apply writes_ret
  | |- writes (lift _) _ _ => apply writes_lift
  | |- writes (add_error _ _) _ _ => apply writes_add_error
  | |- writes (add_warning _ _) _ _ => apply writes_add_warning
  | |- writes (validate_ingredients _ _) _ _ => apply writes_validate_ingredients
  | |- writes (validate_results _ _ (JList _)) _ _ => apply writes_validate_results
  | |- writes (validate_result _ _ (JDict _)) _ _ => apply writes_validate_result
  end.

(** ** Cutting and mixing *)

Lemma writes_validate_cutting py_str path recipe :
  writes (validate_cutting py_str path recipe) (Ok tt)
    (mkDelta
       (app (ingredients_field_errors "Cutting" path recipe)
       (app (results_field_errors py_str "Cutting" path recipe)
            match Py.dict_get "processingTime" recipe with
            | Some time =>
                if Py.is_number time then []
                else ["[ERROR] " ++ path ++ ": Field 'processingTime' must be a number"]
            | None => []
            end))
       (app (ingredients_field_warnings path recipe)
            (results_field_warnings path recipe))
       0 []).
Proof.
  unfold validate_cutting, ingredients_field_errors, ingredients_field_warnings,
    results_field_errors, results_field_warnings, Py.dict_in, Py.subscript.
  destruct (Py.dict_get "ingredients" recipe) as [ingredients|];
    destruct (Py.dict_get "results" recipe) as [[| | | | |results|]|];
    destruct (Py.dict_get "processingTime" recipe) as [[]|];
    (eapply writes_conv; [writes_go | delta_norm; reflexivity]).
Qed.

Lemma heat_allowed heat :
  existsb (Py.eq_str heat) ["none"; "heated"; "superheated"] = true <->
  heat = JStr "none" \/ heat = JStr "heated" \/ heat = JStr "superheated".
Proof.
  split.
  - intros H. apply existsb_exists in H as (s & Hs & E).
    destruct heat; try discriminate E. apply String.eqb_eq in E. subst s0.
    simpl in Hs. intuition (subst; auto).
  - intros [-> | [-> | ->]]; reflexivity.
Qed.

Lemma writes_validate_mixing py_str path recipe :
  writes (validate_mixing py_str path recipe) (Ok tt)
    (mkDelta
       (app (ingredients_field_errors "Mixing" path recipe)
       (app (results_field_errors py_str "Mixing" path recipe)
            match Py.dict_get "heatRequirement" recipe with
            | Some heat =>
                if existsb (Py.eq_str heat) ["none"; "heated"; "superheated"]
                then []
                else ["[ERROR] " ++ path ++ ": Invalid heatRequirement: "
                      ++ py_str heat]
            | None => []
            end))
       (app (ingredients_field_warnings path recipe)
            (results_field_warnings path recipe))
       0 []).
Proof.
  unfold validate_mixing, ingredients_field_errors, ingredients_field_warnings,
    results_field_errors, results_field_warnings, Py.dict_in, Py.subscript.
  assert (Hheat : forall heat,
             writes
               (if negb (existsb (Py.eq_str heat) ["none"; "heated"; "superheated"])
                then add_error path ("Invalid heatRequirement: " ++ py_str heat)
                else ret tt) (Ok tt)
               (mkDelta
                  (if existsb (Py.eq_str heat) ["none"; "heated"; "superheated"]
                   then []
                   else ["[ERROR] " ++ path ++ ": Invalid heatRequirement: "
                         ++ py_str heat]) [] 0 [])).
  { intros heat.
    destruct (existsb (Py.eq_str heat) ["none"; "heated"; "superheated"]);
      [apply writes_ret | apply writes_add_error]. }
  destruct (Py.dict_get "ingredients" recipe) as [ingredients|];
    destruct (Py.dict_get "results" recipe) as [[| | | | |results|]|];
    destruct (Py.dict_get "heatRequirement" recipe) as [heat|];
    (eapply writes_conv;
     [ repeat first
         [ apply Hheat
         | eapply writes_bind_eq; [writes_go | cbv beta | reflexivity]
         | writes_go ]
     | delta_norm; reflexivity ]).
Qed.

(** X1: [validate_ingredients] never raises, whatever it is given.  For
    a list it adds, element by element, one error for each element that is
    not a mapping or is a mapping with none of ['item'], ['tag'], ['fluid'],
    and one warning for each mapping with more than one of them, after the
    warning for the empty list; a mapping is checked as one ingredient; any
    other value gets one error. *)
Theorem ingredients_of_any_shape path ingredients self :
  validate_ingredients path ingredients self =
  (Ok tt,
   mkValidator (recipes_path self)
     (app (errors self) (ingredients_errors path ingredients))
     (app (warnings self) (ingredients_warnings path ingredients))
     (validated_files self) (stdout self)).
Proof. apply writes_run, writes_validate_ingredients. Qed.

(** X2: on a list, [validate_results] never raises and adds one error for
    each element that is not a mapping and, for each mapping, the errors of
    [validate_result], in the order of the list; the only warning is the one
    for the empty list. *)
Theorem results_of_a_list py_str path results self :
  validate_results py_str path (JList results) self =
  (Ok tt,
   mkValidator (recipes_path self)
     (app (errors self) (results_errors py_str path results))
     (app (warnings self) (results_warnings path results))
     (validated_files self) (stdout self)).
Proof. apply writes_run, writes_validate_results. Qed.

(** X3: a cutting recipe never raises; it gets the diagnostics of its
    ingredients (one mapping or a list), then those of its results, which
    must be a list (a missing field or any other value gets one error and is
    not looked into), then one error for a ['processingTime'] that is not a
    number, a boolean passing for one. *)
Theorem cutting_diagnostics py_str path recipe self :
  validate_cutting py_str path recipe self =
  (Ok tt,
   mkValidator (recipes_path self)
     (app (errors self)
     (app (ingredients_field_errors "Cutting" path recipe)
     (app (results_field_errors py_str "Cutting" path recipe)
          match Py.dict_get "processingTime" recipe with
          | Some time =>
              if Py.is_number time then []
              else ["[ERROR] " ++ path ++ ": Field 'processingTime' must be a number"]
          | None => []
          end)))
     (app (warnings self)
     (app (ingredients_field_warnings path recipe)
          (results_field_warnings path recipe)))
     (validated_files self) (stdout self)).
Proof. apply writes_run, writes_validate_cutting. Qed.

(** X4: a mixing recipe never raises; it gets the diagnostics of its
    ingredients, then those of its results as a cutting recipe does, then one
    error for a ['heatRequirement'] that is present and is not one of the
    strings ["none"], ["heated"], ["superheated"]: any other string and any
    value that is not a string is refused. *)
Theorem mixing_diagnostics py_str path recipe :
  (forall self,
      validate_mixing py_str path recipe self =
      (Ok tt,
       mkValidator (recipes_path self)
         (app (errors self)
         (app (ingredients_field_errors "Mixing" path recipe)
         (app (results_field_errors py_str "Mixing" path recipe)
              match Py.dict_get "heatRequirement" recipe with
              | Some heat =>
                  if existsb (Py.eq_str heat) ["none"; "heated"; "superheated"]
                  then []
                  else ["[ERROR] " ++ path ++ ": Invalid heatRequirement: "
                        ++ py_str heat]
              | None => []
              end)))
         (app (warnings self)
         (app (ingredients_field_warnings path recipe)
              (results_field_warnings path recipe)))
         (validated_files self) (stdout self))) /\
  (forall heat,
      existsb (Py.eq_str heat) ["none"; "heated"; "superheated"] = true <->
      heat = JStr "none" \/ heat = JStr "heated" \/ heat = JStr "superheated").
Proof.
  split.
  - intros self. apply writes_run, writes_validate_mixing.
  - apply heat_allowed.
Qed.

(** ** Sequenced assembly *)

Lemma writes_validate_sequenced_assembly path recipe :
  writes (validate_sequenced_assembly path recipe) (Ok tt)
    (mkDelta
       (app (flat_map (fun field =>
                         if Py.dict_in field recipe then []
                         else ["[ERROR] " ++ path ++ ": Sequenced assembly missing '"
                               ++ field ++ "' field"])
                      ["ingredient"; "transitionalItem"; "sequence"; "results"; "loops"])
            match Py.dict_get "sequence" recipe with
            | Some sequence =>
                if Py.is_list sequence then []
                else ["[ERROR] " ++ path ++ ": Field 'sequence' must be a JSON array"]
            | None => []
            end)
       [] 0 []).
Proof.
  unfold validate_sequenced_assembly.
  eapply writes_conv.
  - eapply writes_bind_eq; [| | reflexivity].
    + apply (writes_for_each_flat _ _
               (fun field =>
                  if Py.dict_in field recipe then []
                  else ["[ERROR] " ++ path ++ ": Sequenced assembly missing '"
                        ++ field ++ "' field"])
               (fun _ => [])).
      intros field. destruct (Py.dict_in field recipe);
        [apply writes_ret | apply writes_add_error].
    + cbv beta. unfold Py.dict_in at 1. unfold Py.subscript.
      instantiate (1 := mkDelta
                          match Py.dict_get "sequence" recipe with
                          | Some sequence =>
                              if Py.is_list sequence then []
                              else ["[ERROR] " ++ path
                                    ++ ": Field 'sequence' must be a JSON array"]
                          | None => []
                          end [] 0 []).
      destruct (Py.dict_get "sequence" recipe) as [[]|];
        (eapply writes_conv; [writes_go | reflexivity]).
  - unfold dapp; cbn [d_errors d_warnings d_files d_stdout flat_map app Nat.add].
    reflexivity.
Qed.

(** X5: a sequenced-assembly recipe never raises and never gets a warning;
    it gets one error for each of ['ingredient'], ['transitionalItem'],
    ['sequence'], ['results'], ['loops'] that is missing, in this order, then
    one error for a ['sequence'] that is present and is not a list.  The
    values of the other four fields are never looked at. *)
Theorem sequenced_assembly_diagnostics path recipe self :
  validate_sequenced_assembly path recipe self =
  (Ok tt,
   mkValidator (recipes_path self)
     (app (errors self)
     (app (flat_map (fun field =>
                       if Py.dict_in field recipe then []
                       else ["[ERROR] " ++ path ++ ": Sequenced assembly missing '"
                             ++ field ++ "' field"])
                    ["ingredient"; "transitionalItem"; "sequence"; "results"; "loops"])
          match Py.dict_get "sequence" recipe with
          | Some sequence =>
              if Py.is_list sequence then []
              else ["[ERROR] " ++ path ++ ": Field 'sequence' must be a JSON array"]
          | None => []
          end))
     (warnings self) (validated_files self) (stdout self)).
Proof.
  rewrite (writes_run _ _ _ _ self (writes_validate_sequenced_assembly path recipe)).
  now rewrite app_nil_r.
Qed.

(** ** A file of a known type *)

(** A mapping whose type the table knows gets what its rule set writes, once
    the file is announced and counted. *)
Lemma validate_recipe_file_known py_str table path recipe kind rule es ws self :
  Py.dict_get "type" recipe = Some (JStr kind) ->
  Py.get table (JStr kind) = Ok (Some rule) ->
  writes (rule path recipe) (Ok tt) (mkDelta es ws 0 []) ->
  validate_recipe_file_with py_str table (mkFile path (Ok (JDict recipe))) self =
  (Ok tt,
   mkValidator (recipes_path self) (app (errors self) es) (app (warnings self) ws)
     (validated_files self + 1) (append (stdout self) ("Validating: " ++ path))).
Proof.
  intros Htype Hget Hrule.
  unfold validate_recipe_file_with, check_recipe, bind, try_except, lift,
    print, count_file, Py.dict_in, Py.subscript.
  cbn [relative_path load]. rewrite Htype. cbn [negb].
  unfold rule_set in *. rewrite Hget, Hrule.
  unfold extend; cbn [errors warnings validated_files stdout recipes_path
                      d_errors d_warnings d_files d_stdout].
  now rewrite app_nil_r, Nat.add_0_r.
Qed.

Lemma writes_presence_only (check : string -> dict -> M unit) label path recipe :
  (check = validate_filling /\ label = "Filling") \/
  (check = validate_emptying /\ label = "Emptying") \/
  (check = validate_pressing /\ label = "Pressing") \/
  (check = validate_deploying /\ label = "Deploying") ->
  writes (check path recipe) (Ok tt)
    (mkDelta
       (app (if Py.dict_in "ingredients" recipe then []
             else ["[ERROR] " ++ path ++ ": " ++ label
                   ++ " recipe missing 'ingredients' field"])
            (if Py.dict_in "results" recipe then []
             else ["[ERROR] " ++ path ++ ": " ++ label
                   ++ " recipe missing 'results' field"]))
       [] 0 []).
Proof.
  intros [[-> ->] | [[-> ->] | [[-> ->] | [-> ->]]]];
    unfold validate_filling, validate_emptying, validate_pressing, validate_deploying;
    destruct (Py.dict_in "ingredients" recipe), (Py.dict_in "results" recipe);
    (eapply writes_conv; [writes_go | reflexivity]).
Qed.

(** X6: a filling, emptying, pressing or deploying recipe is checked for
    the presence of ['ingredients'] and ['results'] and for nothing else: the
    file gets one error for each of the two that is missing, ingredients
    first, no warning, and no exception is raised; when both are present
    nothing is added, whatever their values are. *)
Theorem presence_only_recipes py_str set_iter path recipe kind label self :
  In (kind, label)
     [("create:filling", "Filling"); ("create:emptying", "Emptying");
      ("create:pressing", "Pressing"); ("create:deploying", "Deploying")] ->
  Py.dict_get "type" recipe = Some (JStr kind) ->
  validate_recipe_file py_str set_iter (mkFile path (Ok (JDict recipe))) self =
  (Ok tt,
   mkValidator (recipes_path self)
     (app (errors self)
     (app (if Py.dict_in "ingredients" recipe then []
           else ["[ERROR] " ++ path ++ ": " ++ label
                 ++ " recipe missing 'ingredients' field"])
          (if Py.dict_in "results" recipe then []
           else ["[ERROR] " ++ path ++ ": " ++ label
                 ++ " recipe missing 'results' field"])))
     (warnings self)
     (validated_files self + 1)
     (append (stdout self) ("Validating: " ++ path))).
Proof.
  intros Hkind Htype.
  rewrite <- (app_nil_r (warnings self)).
  destruct Hkind as [E|[E|[E|[E|[]]]]]; injection E as <- <-.
  - apply (validate_recipe_file_known _ (validators py_str set_iter) _ _ _
             validate_filling _ _ _ Htype eq_refl).
    apply writes_presence_only. auto.
  - apply (validate_recipe_file_known _ (validators py_str set_iter) _ _ _
             validate_emptying _ _ _ Htype eq_refl).
    apply writes_presence_only. auto.
  - apply (validate_recipe_file_known _ (validators py_str set_iter) _ _ _
             validate_pressing _ _ _ Htype eq_refl).
    apply writes_presence_only. auto.
  - apply (validate_recipe_file_known _ (validators py_str set_iter) _ _ _
             validate_deploying _ _ _ Htype eq_refl).
    apply writes_presence_only. auto 6.
Qed.

Lemma presence_only_recipes_witness :
  validate_recipe_file example_str insertion_order
    (mkFile "fill.json"
       (Ok (JDict [("type", JStr "create:filling");
                   ("ingredients", JInt 5); ("results", JStr "x")])))
    (init "recipes") =
  (Ok tt, mkValidator "recipes" [] [] 1 ["Validating: fill.json"]).
Proof.
  apply (presence_only_recipes example_str insertion_order "fill.json"
           [("type", JStr "create:filling");
            ("ingredients", JInt 5); ("results", JStr "x")]
           "create:filling" "Filling" (init "recipes")).
  - left. reflexivity.
  - reflexivity.
Defined.

Lemma writes_validate_vanilla_crafting path recipe :
  writes (validate_vanilla_crafting path recipe) (Ok tt)
    (mkDelta (if Py.dict_in "result" recipe then []
              else ["[ERROR] " ++ path ++ ": Vanilla crafting missing 'result' field"])
             [] 0 []).
Proof.
  unfold validate_vanilla_crafting.
  destruct (Py.dict_in "result" recipe);
    (eapply writes_conv; [writes_go | reflexivity]).
Qed.

(** X7: a shaped and a shapeless crafting recipe are checked alike, for
    the presence of ['result'] only: the file gets one error when it is
    missing and nothing when it is there, whatever its value, and neither the
    pattern nor the key nor the ingredients of such a recipe are looked
    at. *)
Theorem vanilla_crafting_recipes py_str set_iter path recipe kind self :
  kind = "minecraft:crafting_shaped" \/ kind = "minecraft:crafting_shapeless" ->
  Py.dict_get "type" recipe = Some (JStr kind) ->
  validate_recipe_file py_str set_iter (mkFile path (Ok (JDict recipe))) self =
  (Ok tt,
   mkValidator (recipes_path self)
     (app (errors self)
          (if Py.dict_in "result" recipe then []
           else ["[ERROR] " ++ path ++ ": Vanilla crafting missing 'result' field"]))
     (warnings self)
     (validated_files self + 1)
     (append (stdout self) ("Validating: " ++ path))).
Proof.
  intros Hkind Htype.
  rewrite <- (app_nil_r (warnings self)).
  destruct Hkind as [-> | ->];
    apply (validate_recipe_file_known _ (validators py_str set_iter) _ _ _
             validate_vanilla_crafting _ _ _ Htype eq_refl),
      writes_validate_vanilla_crafting.
Qed.

Lemma vanilla_crafting_recipes_witness :
  validate_recipe_file example_str insertion_order
    (mkFile "craft.json"
       (Ok (JDict [("type", JStr "minecraft:crafting_shapeless");
                   ("ingredients", JStr "anything")])))
    (init "recipes") =
  (Ok tt,
   mkValidator "recipes"
     ["[ERROR] craft.json: Vanilla crafting missing 'result' field"] [] 1
     ["Validating: craft.json"]).
Proof.
  apply (vanilla_crafting_recipes example_str insertion_order "craft.json"
           [("type", JStr "minecraft:crafting_shapeless");
            ("ingredients", JStr "anything")]
           "minecraft:crafting_shapeless" (init "recipes")).
  - right. reflexivity.
  - reflexivity.
Defined.

(** ** A document that is not a mapping *)

(** X8: a file that parses to anything but a mapping (a list, a string, a
    number, a boolean, null) gets one error and nothing else, whatever the
    table of rule sets is: no rule set runs and the ['type'] is not looked
    for. *)
Theorem root_not_mapping_is_one_error py_str table path recipe self :
  Py.is_dict recipe = false ->
  validate_recipe_file_with py_str table (mkFile path (Ok recipe)) self =
  (Ok tt,
   mkValidator (recipes_path self)
     (append (errors self)
             ("[ERROR] " ++ path ++ ": Root element is not a JSON object"))
     (warnings self)
     (validated_files self + 1)
     (append (stdout self) ("Validating: " ++ path))).
Proof.
  intros Hroot. destruct recipe; try discriminate Hroot; reflexivity.
Qed.

Lemma root_not_mapping_is_one_error_witness :
  validate_recipe_file example_str insertion_order
    (mkFile "a.json" (Ok (JList [JDict [("type", JStr "create:mixing")]])))
    (init "recipes") =
  (Ok tt,
   mkValidator "recipes" ["[ERROR] a.json: Root element is not a JSON object"]
     [] 1 ["Validating: a.json"]).
Proof.
  apply (root_not_mapping_is_one_error example_str
           (validators example_str insertion_order) "a.json"
           (JList [JDict [("type", JStr "create:mixing")]]) (init "recipes")).
  reflexivity.
Defined.

(** ** The pattern check, exactly *)

Lemma string_length_app (a b : string) :
  String.length (a ++ b) = String.length a + String.length b.
Proof. induction a as [|x a IH]; simpl; auto. Qed.

Lemma string_app_inv_tail (a b r : string) : a ++ r = b ++ r -> a = b.
Proof.
  intros H.
  assert (Hlen : String.length a = String.length b).
  { apply (f_equal String.length) in H.
    rewrite !string_length_app in H. lia. }
  revert b H Hlen. induction a as [|x a IH]; intros [|y b] H Hlen;
    simpl in *; try discriminate; [reflexivity|].
  injection H as -> H. f_equal. apply IH; [exact H | lia].
Qed.

Lemma key_error_inj path c c' :
  "[ERROR] " ++ path ++ ": Pattern uses key '" ++ c
  ++ "' but it's not defined in 'key' object" =
  "[ERROR] " ++ path ++ ": Pattern uses key '" ++ c'
  ++ "' but it's not defined in 'key' object" ->
  c = c'.
Proof.
  intros H. apply line_inv in H.
  apply (string_app_inv_head ": Pattern uses key '") in H.
  now apply string_app_inv_tail in H.
Qed.

Lemma key_warning_inj path k k' :
  "[WARNING] " ++ path ++ ": Key '" ++ k ++ "' is defined but never used in pattern" =
  "[WARNING] " ++ path ++ ": Key '" ++ k' ++ "' is defined but never used in pattern" ->
  k = k'.
Proof.
  intros H.
  apply (string_app_inv_head "[WARNING] "), string_app_inv_head in H.
  apply (string_app_inv_head ": Key '") in H.
  now apply string_app_inv_tail in H.
Qed.

Lemma set_add_NoDup x s : NoDup s -> NoDup (Py.set_add x s).
Proof.
  intros Hs. unfold Py.set_add, append.
  destruct (Py.set_in x s) eqn:E; [exact Hs|].
  apply NoDup_app; [exact Hs | repeat constructor; easy |].
  intros y Hy [<-|[]]. apply set_in_In in Hy. congruence.
Qed.

Lemma add_row_keys_NoDup row used : NoDup used -> NoDup (add_row_keys used row).
Proof.
  unfold add_row_keys. revert used.
  induction (Py.chars row) as [|c l IH]; intros used Hu; simpl; [exact Hu|].
  apply IH. destruct (String.eqb c " "); auto using set_add_NoDup.
Qed.

Lemma used_keys_from_NoDup rows used :
  NoDup used -> NoDup (used_keys_from used rows).
Proof.
  unfold used_keys_from. revert used.
  induction rows as [|row rows IH]; intros used Hu; simpl; [exact Hu|].
  apply IH. destruct row; auto using add_row_keys_NoDup.
Qed.

Lemma NoDup_flat_map_option {A B} (f : A -> list B) (g : A -> B) l :
  (forall x y, g x = g y -> x = y) ->
  (forall x, f x = [] \/ f x = [g x]) ->
  NoDup l -> NoDup (flat_map f l).
Proof.
  intros Hg Hf Hl. induction Hl as [|x l Hx Hl IH]; simpl; [constructor|].
  destruct (Hf x) as [-> | ->]; simpl; [exact IH|].
  constructor; [|exact IH].
  intros Hin. apply in_flat_map in Hin as (y & Hy & Hin).
  destruct (Hf y) as [E|E]; rewrite E in Hin; [easy|].
  destruct Hin as [Hin|[]]. apply Hg in Hin. congruence.
Qed.

(** X9: on a pattern with rows and a key that is a mapping (or missing),
    the pattern check adds one error for each row that is not a string, in
    the order of the rows, and then the errors for undefined keys: one for
    each character, other than the blank, that occurs in a row that is a
    string and is not a key of the mapping, each such character once however
    often it occurs, and no other. *)
Theorem pattern_errors_exactly set_iter path recipe row rows kd self :
  (forall s, Permutation (set_iter s) s) ->
  Py.dict_get "pattern" recipe = Some (JList (row :: rows)) ->
  Py.dict_get_default "key" (JDict []) recipe = JDict kd ->
  exists key_errors new_warnings,
    validate_pattern set_iter path recipe self =
    (Ok tt,
     mkValidator (recipes_path self)
       (app (errors self)
       (app (flat_map (fun r =>
                         match r with
                         | JStr _ => []
                         | _ => ["[ERROR] " ++ path ++ ": Pattern row must be a string"]
                         end) (row :: rows))
            key_errors))
       (app (warnings self) new_warnings)
       (validated_files self) (stdout self)) /\
    NoDup key_errors /\
    (forall e,
        In e key_errors <->
        exists char,
          e = "[ERROR] " ++ path ++ ": Pattern uses key '" ++ char
              ++ "' but it's not defined in 'key' object" /\
          Py.dict_in char kd = false /\
          exists r, In (JStr r) (row :: rows) /\ In char (Py.chars r) /\ char <> " ").
Proof.
  intros Hperm Hpattern Hkey.
  eexists _, _. split; [|split].
  - apply writes_run. exact (validate_pattern_writes _ _ _ _ _ _ Hpattern Hkey).
  - apply (NoDup_flat_map_option _
             (fun char => "[ERROR] " ++ path ++ ": Pattern uses key '" ++ char
                          ++ "' but it's not defined in 'key' object")).
    + intros x y. apply key_error_inj.
    + intros x. destruct (Py.dict_in x kd); auto.
    + apply (Permutation_NoDup (Permutation_sym (Hperm _))).
      apply used_keys_from_NoDup. constructor.
  - intros e. rewrite in_flat_map. split.
    + intros (char & Hin & He).
      apply (Permutation_in _ (Hperm _)), In_used_keys_from in Hin.
      destruct Hin as [[]|Hin].
      destruct (Py.dict_in char kd) eqn:Hd; [easy|].
      destruct He as [<-|[]]. exists char. auto.
    + intros (char & -> & Hd & Hin). exists char. split.
      * apply (Permutation_in _ (Permutation_sym (Hperm _))).
        apply In_used_keys_from. auto.
      * rewrite Hd. now left.
Qed.

Lemma pattern_errors_exactly_witness :
  exists key_errors new_warnings,
    validate_pattern insertion_order "a.json"
      [("pattern", JList [JStr "B B"; JInt 7; JStr "AB"]);
       ("key", JDict [("A", JDict [("item", JStr "x")])])]
      (init "recipes") =
    (Ok tt,
     mkValidator "recipes"
       (app ["[ERROR] a.json: Pattern row must be a string"] key_errors)
       new_warnings 0 []) /\
    NoDup key_errors /\
    In "[ERROR] a.json: Pattern uses key 'B' but it's not defined in 'key' object"
       key_errors.
Proof.
  destruct (pattern_errors_exactly insertion_order "a.json"
              [("pattern", JList [JStr "B B"; JInt 7; JStr "AB"]);
               ("key", JDict [("A", JDict [("item", JStr "x")])])]
              (JStr "B B") [JInt 7; JStr "AB"]
              [("A", JDict [("item", JStr "x")])] (init "recipes")
              (fun s => Permutation_refl s) eq_refl eq_refl)
    as (key_errors & new_warnings & Hrun & Hnodup & Hin).
  exists key_errors, new_warnings. split; [exact Hrun|]. split; [exact Hnodup|].
  apply Hin. exists "B". split; [reflexivity|]. split; [reflexivity|].
  exists "AB". simpl. split; [auto|]. split; [auto | discriminate].
Defined.

(** X10: on a pattern with rows and a key that is a mapping (or missing),
    the warning for an unused key is given for exactly the keys of one
    character that do not occur, as a character other than the blank, in a
    row that is a string.  So a key of several characters or the empty key is
    never warned about, and a key that is the blank always is, blanks not
    being collected from the rows. *)
Theorem pattern_warnings_exactly set_iter path recipe row rows kd self :
  Py.dict_get "pattern" recipe = Some (JList (row :: rows)) ->
  Py.dict_get_default "key" (JDict []) recipe = JDict kd ->
  exists new_errors new_warnings,
    validate_pattern set_iter path recipe self =
    (Ok tt,
     mkValidator (recipes_path self)
       (app (errors self) new_errors) (app (warnings self) new_warnings)
       (validated_files self) (stdout self)) /\
    (forall key,
        In ("[WARNING] " ++ path ++ ": Key '" ++ key
            ++ "' is defined but never used in pattern") new_warnings <->
        In key (Py.dict_keys kd) /\ String.length key = 1 /\
        ~ exists r, In (JStr r) (row :: rows) /\ In key (Py.chars r) /\ key <> " ") /\
    (In " " (Py.dict_keys kd) ->
     In ("[WARNING] " ++ path ++ ": Key ' ' is defined but never used in pattern")
        new_warnings).
Proof.
  intros Hpattern Hkey.
  assert (Hiff : forall key,
    In ("[WARNING] " ++ path ++ ": Key '" ++ key
        ++ "' is defined but never used in pattern")
       (d_warnings (pattern_delta set_iter path (row :: rows) kd)) <->
    In key (Py.dict_keys kd) /\ String.length key = 1 /\
    ~ exists r, In (JStr r) (row :: rows) /\ In key (Py.chars r) /\ key <> " ").
  { intros key. unfold pattern_delta; cbn [d_warnings].
    rewrite in_flat_map. split.
    - intros (k & Hk & Hin).
      destruct (Nat.eqb_spec (String.length k) 1) as [Hlen|Hlen];
        cbn [andb] in Hin; [|easy].
      destruct (Py.set_in k (used_keys_from [] (row :: rows))) eqn:Hused;
        cbn [negb] in Hin; [easy|].
      destruct Hin as [Hin|[]]. apply key_warning_inj in Hin. subst k.
      split; [exact Hk|]. split; [exact Hlen|].
      intros Hex.
      assert (In key (used_keys_from [] (row :: rows)))
        by (apply In_used_keys_from; auto).
      apply set_in_In in H. congruence.
    - intros (Hk & Hlen & Hunused). exists key. split; [exact Hk|].
      rewrite Hlen. cbn [Nat.eqb andb].
      destruct (Py.set_in key (used_keys_from [] (row :: rows))) eqn:Hused.
      + apply set_in_In, In_used_keys_from in Hused.
        destruct Hused as [[]|Hused]. contradiction.
      + now left. }
  exists (d_errors (pattern_delta set_iter path (row :: rows) kd)),
         (d_warnings (pattern_delta set_iter path (row :: rows) kd)).
  split; [|split].
  - apply writes_run. exact (validate_pattern_writes _ _ _ _ _ _ Hpattern Hkey).
  - exact Hiff.
  - intros Hblank. apply (Hiff " "). split; [exact Hblank|].
    split; [reflexivity|]. intros (r & _ & _ & Hne). now apply Hne.
Qed.

Lemma pattern_warnings_exactly_witness :
  exists new_errors new_warnings,
    validate_pattern insertion_order "a.json"
      [("pattern", JList [JStr "A A"]);
       ("key", JDict [("A", JNull); (" ", JNull); ("AA", JNull)])]
      (init "recipes") =
    (Ok tt, mkValidator "recipes" new_errors new_warnings 0 []) /\
    In "[WARNING] a.json: Key ' ' is defined but never used in pattern"
       new_warnings /\
    ~ In "[WARNING] a.json: Key 'AA' is defined but never used in pattern"
         new_warnings.
Proof.
  destruct (pattern_warnings_exactly insertion_order "a.json"
              [("pattern", JList [JStr "A A"]);
               ("key", JDict [("A", JNull); (" ", JNull); ("AA", JNull)])]
              (JStr "A A") [] [("A", JNull); (" ", JNull); ("AA", JNull)]
              (init "recipes") eq_refl eq_refl)
    as (new_errors & new_warnings & Hrun & Hiff & Hblank).
  exists new_errors, new_warnings. split; [exact Hrun|]. split.
  - apply Hblank. simpl. auto.
  - intros Hin. apply (Hiff "AA") in Hin. destruct Hin as (_ & Hlen & _).
    discriminate Hlen.
Defined.

(** ** A key that is not a mapping *)

Lemma contains_cases_typed key :
  (exists f, forall c, Py.contains key c = Ok (f c)) \/
  (exists msg, forall c, Py.contains key c = Raise (TypeError msg)).
Proof.
  destruct key; simpl; try (right; eexists; reflexivity).
  - left. now exists (fun c => match index 0 c s with Some _ => true | None => false end).
  - left. now exists (fun c => existsb (fun x => Py.eq_str x c) l).
  - left. now exists (fun c => Py.dict_in c d).
Qed.

Lemma keys_of_non_mapping key :
  Py.is_dict key = false -> exists msg, Py.keys key = Raise (AttributeError msg).
Proof. destruct key; try discriminate; intros _; eexists; reflexivity. Qed.

Lemma in_undefined_key_errors path (f : string -> bool) l x :
  In x (flat_map (fun c => if f c then []
                           else ["[ERROR] " ++ path ++ ": Pattern uses key '" ++ c
                                 ++ "' but it's not defined in 'key' object"]) l) ->
  exists c, x = "[ERROR] " ++ path ++ ": Pattern uses key '" ++ c
                ++ "' but it's not defined in 'key' object".
Proof.
  intros H. apply in_flat_map in H as (c & _ & H).
  destruct (f c); [easy|]. destruct H as [<-|[]]. now exists c.
Qed.

(** With rows and a key that is there and is not a mapping, the pattern
    check raises: [in] does on a key that is no container, and [keys] does on
    one that is. *)
Lemma validate_pattern_raises set_iter path recipe row rows key :
  Py.dict_get "pattern" recipe = Some (JList (row :: rows)) ->
  Py.dict_get "key" recipe = Some key ->
  Py.is_dict key = false ->
  exists e key_errors,
    writes (validate_pattern set_iter path recipe) (Raise e)
      (mkDelta
         (app (flat_map (fun r =>
                           match r with
                           | JStr _ => []
                           | _ => ["[ERROR] " ++ path ++ ": Pattern row must be a string"]
                           end) (row :: rows))
              key_errors)
         [] 0 []) /\
    (exists msg, e = TypeError msg \/ e = AttributeError msg) /\
    (forall x, In x key_errors ->
               exists c, x = "[ERROR] " ++ path ++ ": Pattern uses key '" ++ c
                             ++ "' but it's not defined in 'key' object").
Proof.
  intros Hpattern Hkey Hdict.
  destruct (keys_of_non_mapping key Hdict) as [amsg Hkeys].
  unfold validate_pattern, Py.subscript, Py.dict_get_default.
  rewrite Hpattern, Hkey.
  assert (Hloop : exists e key_errors,
    writes (for_each (set_iter (used_keys_from [] (row :: rows)))
                     (undefined_key_check path key) ;;
            keys <- lift (Py.keys key) ;;
            for_each keys (fun defined_key =>
              if (String.length defined_key =? 1)%nat
                 && negb (Py.set_in defined_key (used_keys_from [] (row :: rows)))
              then add_warning path ("Key '" ++ defined_key
                                     ++ "' is defined but never used in pattern")
              else ret tt))
           (Raise e) (mkDelta key_errors [] 0 []) /\
    (exists msg, e = TypeError msg \/ e = AttributeError msg) /\
    (forall x, In x key_errors ->
               exists c, x = "[ERROR] " ++ path ++ ": Pattern uses key '" ++ c
                             ++ "' but it's not defined in 'key' object")).
  { rewrite Hkeys.
    destruct (contains_cases_typed key) as [[f Hf]|[msg Hmsg]].
    - exists (AttributeError amsg). eexists. split; [|split].
      + eapply writes_bind_eq;
          [ apply (writes_undefined_keys path key f _ Hf)
          | apply writes_bind_raise, writes_lift
          | unfold dapp, dnil; cbn [d_errors d_warnings d_files d_stdout app Nat.add];
            rewrite app_nil_r; reflexivity ].
      + eauto.
      + apply in_undefined_key_errors.
    - pose proof (writes_undefined_keys_raise path key _
                    (set_iter (used_keys_from [] (row :: rows))) Hmsg) as Hraise.
      destruct (set_iter (used_keys_from [] (row :: rows))) as [|c l].
      + exists (AttributeError amsg), []. split; [|split]; [|eauto|easy].
        eapply writes_bind_eq;
          [exact Hraise | apply writes_bind_raise, writes_lift | reflexivity].
      + exists (TypeError msg), []. split; [|split]; [|eauto|easy].
        apply writes_bind_raise. exact Hraise. }
  destruct Hloop as (e & key_errors & Hloop & Hclass & Hin).
  exists e, key_errors. split; [|split]; [|exact Hclass|exact Hin].
  eapply writes_conv.
  - eapply writes_bind_eq;
      [ apply writes_lift
      | cbv beta; cbn [Py.truth Py.nonempty negb];
        eapply writes_bind_eq;
        [ apply writes_lift
        | cbv beta;
          eapply writes_bind_eq; [apply writes_rows | exact Hloop | reflexivity]
        | reflexivity ]
      | reflexivity ].
  - delta_norm. reflexivity.
Qed.

(** A mapping whose rule set raises gets what the rule set wrote before,
    then the error of the handler. *)
Lemma validate_recipe_file_raising py_str table path recipe kind rule e es ws self :
  Py.dict_get "type" recipe = Some (JStr kind) ->
  Py.get table (JStr kind) = Ok (Some rule) ->
  writes (rule path recipe) (Raise e) (mkDelta es ws 0 []) ->
  (exists msg, e = TypeError msg \/ e = AttributeError msg) ->
  validate_recipe_file_with py_str table (mkFile path (Ok (JDict recipe))) self =
  (Ok tt,
   mkValidator (recipes_path self)
     (app (errors self)
          (app es ["[ERROR] " ++ path ++ ": Unexpected error: " ++ exn_str e]))
     (app (warnings self) ws)
     (validated_files self + 1) (append (stdout self) ("Validating: " ++ path))).
Proof.
  intros Htype Hget Hrule (msg & He).
  unfold validate_recipe_file_with, check_recipe, bind, try_except, lift,
    print, count_file, Py.dict_in, Py.subscript.
  cbn [relative_path load]. rewrite Htype. cbn [negb].
  unfold rule_set in *. rewrite Hget, Hrule.
  destruct He as [-> | ->];
    unfold add_error, extend, append;
    cbn [errors warnings validated_files stdout recipes_path
         d_errors d_warnings d_files d_stdout];
    now rewrite <- app_assoc, Nat.add_0_r, app_nil_r.
Qed.

Lemma mechanical_crafting_raises py_str set_iter path recipe row rows key :
  Py.dict_get "pattern" recipe = Some (JList (row :: rows)) ->
  Py.dict_get "key" recipe = Some key ->
  Py.is_dict key = false ->
  exists e key_errors,
    writes (validate_mechanical_crafting py_str set_iter path recipe) (Raise e)
      (mkDelta
         (("[ERROR] " ++ path ++ ": Field 'key' must be a JSON object")
          :: app (flat_map (fun r =>
                              match r with
                              | JStr _ => []
                              | _ => ["[ERROR] " ++ path
                                      ++ ": Pattern row must be a string"]
                              end) (row :: rows))
                 key_errors)
         [] 0 []) /\
    (exists msg, e = TypeError msg \/ e = AttributeError msg) /\
    (forall x, In x key_errors ->
               exists c, x = "[ERROR] " ++ path ++ ": Pattern uses key '" ++ c
                             ++ "' but it's not defined in 'key' object").
Proof.
  intros Hpattern Hkey Hdict.
  destruct (validate_pattern_raises set_iter path recipe row rows key
              Hpattern Hkey Hdict) as (e & key_errors & Hp & Hclass & Hin).
  exists e, key_errors. split; [|split]; [|exact Hclass|exact Hin].
  unfold validate_mechanical_crafting, Py.dict_in, Py.subscript.
  rewrite Hkey, Hpattern. cbn [negb].
  eapply writes_conv.
  - eapply writes_bind_eq;
      [ eapply writes_bind_eq;
        [ apply writes_lift
        | cbv beta; rewrite Hdict; apply writes_add_error
        | reflexivity ]
      | cbv beta; apply writes_bind_raise;
        eapply writes_bind_eq;
        [ apply writes_lift
        | cbv beta; cbn [Py.is_list negb]; exact Hp
        | reflexivity ]
      | reflexivity ].
  - delta_norm. reflexivity.
Qed.

(** X11: a mechanical-crafting recipe with rows in its pattern and a
    ['key'] that is there but is not a mapping always ends in the catch-all
    handler: after the error for the key and the errors of the rows (and, when
    the key is a list or a string, errors for the used characters not found in
    it), one error "Unexpected error" with the text of the [TypeError] or
    [AttributeError] is added, and the ['result'] and ['acceptMirrored'] of the
    recipe are not checked; no warning is given. *)
Theorem non_mapping_key_is_unexpected_error
        py_str set_iter path recipe row rows key self :
  Py.dict_get "type" recipe = Some (JStr "create:mechanical_crafting") ->
  Py.dict_get "pattern" recipe = Some (JList (row :: rows)) ->
  Py.dict_get "key" recipe = Some key ->
  Py.is_dict key = false ->
  exists e key_errors,
    validate_recipe_file py_str set_iter (mkFile path (Ok (JDict recipe))) self =
    (Ok tt,
     mkValidator (recipes_path self)
       (app (errors self)
       (app (("[ERROR] " ++ path ++ ": Field 'key' must be a JSON object")
             :: app (flat_map (fun r =>
                                 match r with
                                 | JStr _ => []
                                 | _ => ["[ERROR] " ++ path
                                         ++ ": Pattern row must be a string"]
                                 end) (row :: rows))
                    key_errors)
            ["[ERROR] " ++ path ++ ": Unexpected error: " ++ exn_str e]))
       (warnings self)
       (validated_files self + 1)
       (append (stdout self) ("Validating: " ++ path))) /\
    (exists msg, e = TypeError msg \/ e = AttributeError msg) /\
    (forall x, In x key_errors ->
               exists c, x = "[ERROR] " ++ path ++ ": Pattern uses key '" ++ c
                             ++ "' but it's not defined in 'key' object").
Proof.
  intros Htype Hpattern Hkey Hdict.
  destruct (mechanical_crafting_raises py_str set_iter path recipe row rows key
              Hpattern Hkey Hdict) as (e & key_errors & Hm & Hclass & Hin).
  exists e, key_errors. split; [|split]; [|exact Hclass|exact Hin].
  rewrite <- (app_nil_r (warnings self)).
  exact (validate_recipe_file_raising py_str (validators py_str set_iter) path
           recipe _ _ e _ _ self Htype eq_refl Hm Hclass).
Qed.

Lemma non_mapping_key_is_unexpected_error_witness :
  exists e key_errors,
    validate_recipe_file example_str insertion_order
      (mkFile "a.json"
         (Ok (JDict [("type", JStr "create:mechanical_crafting");
                     ("key", JList [JStr "A"]);
                     ("pattern", JList [JStr "AB"])])))
      (init "recipes") =
    (Ok tt,
     mkValidator "recipes"
       (app ("[ERROR] a.json: Field 'key' must be a JSON object" :: key_errors)
            ["[ERROR] a.json: Unexpected error: " ++ exn_str e])
       [] 1 ["Validating: a.json"]).
Proof.
  destruct (non_mapping_key_is_unexpected_error example_str insertion_order "a.json"
              [("type", JStr "create:mechanical_crafting");
               ("key", JList [JStr "A"]);
               ("pattern", JList [JStr "AB"])]
              (JStr "AB") [] (JList [JStr "A"]) (init "recipes")
              eq_refl eq_refl eq_refl eq_refl)
    as (e & key_errors & Hrun & _).
  exists e, key_errors. exact Hrun.
Defined.

(** The same file, run: the key is a list, so [in] works on it and
    [keys] raises. *)
Example list_key_file :
  validate_recipe_file example_str insertion_order
    (mkFile "a.json"
       (Ok (JDict [("type", JStr "create:mechanical_crafting");
                   ("key", JList [JStr "A"]);
                   ("pattern", JList [JStr "AB"])])))
    (init "recipes") =
  (Ok tt,
   mkValidator "recipes"
     ["[ERROR] a.json: Field 'key' must be a JSON object";
      "[ERROR] a.json: Pattern uses key 'B' but it's not defined in 'key' object";
      "[ERROR] a.json: Unexpected error: 'list' object has no attribute 'keys'"]
     [] 1 ["Validating: a.json"]).
Proof. reflexivity. Qed.

(** ** A recipe in order *)

Lemma flat_map_nil {A B} (f : A -> list B) l :
  (forall x, In x l -> f x = []) -> flat_map f l = [].
Proof.
  induction l as [|x l IH]; intros H; simpl; [reflexivity|].
  rewrite (H x (or_introl eq_refl)), IH; auto using in_cons.
Qed.

Lemma pattern_delta_clean set_iter path rows kd :
  (forall s, Permutation (set_iter s) s) ->
  (forall row char,
      In row rows -> In char (Py.chars row) -> char <> " " ->
      Py.dict_in char kd = true) ->
  (forall key,
      In key (Py.dict_keys kd) -> String.length key = 1 ->
      exists row, In row rows /\ In key (Py.chars row) /\ key <> " ") ->
  pattern_delta set_iter path (map JStr rows) kd = mkDelta [] [] 0 [].
Proof.
  intros Hperm Hdefined Hused. unfold pattern_delta.
  assert (Hin : forall c, In c (used_keys_from [] (map JStr rows)) <->
                          exists row, In row rows /\ In c (Py.chars row) /\ c <> " ").
  { intros c. rewrite In_used_keys_from. split.
    - intros [[]|(row & Hrow & H)]. exists row. split; [|exact H].
      apply in_map_iff in Hrow as (row' & E & Hrow). now injection E as <-.
    - intros (row & Hrow & H). right. exists row. split; [|exact H].
      now apply in_map. }
  f_equal.
  - rewrite !flat_map_nil; [reflexivity | |].
    + intros c Hc. apply (Permutation_in _ (Hperm _)), Hin in Hc.
      destruct Hc as (row & Hrow & Hchar & Hne).
      now rewrite (Hdefined row c Hrow Hchar Hne).
    + intros row Hrow. apply in_map_iff in Hrow as (r & <- & _). reflexivity.
  - apply flat_map_nil. intros key Hkey.
    destruct (Nat.eqb_spec (String.length key) 1) as [Hlen|Hlen]; [|reflexivity].
    assert (Hk : Py.set_in key (used_keys_from [] (map JStr rows)) = true)
      by (apply set_in_In, Hin, Hused; assumption).
    now rewrite Hk.
Qed.

Lemma result_errors_clean py_str path result :
  Py.dict_in "item" result || Py.dict_in "fluid" result = true ->
  (forall count, Py.dict_get "count" result = Some count ->
                 Py.is_number count && Py.le_zero count = false) ->
  (forall amount, Py.dict_get "amount" result = Some amount ->
                  Py.is_number amount && Py.le_zero amount = false) ->
  result_errors py_str path result = [].
Proof.
  intros Hid Hcount Hamount. unfold result_errors. rewrite Hid.
  destruct (Py.dict_get "count" result) as [count|];
    [rewrite (Hcount count eq_refl)|];
    (destruct (Py.dict_get "amount" result) as [amount|];
     [rewrite (Hamount amount eq_refl)|]); reflexivity.
Qed.

(** X12: a mechanical-crafting recipe in order gets no diagnostic: a key
    that is a mapping, a pattern of one or more rows that are all strings,
    every character of the rows other than the blank defined in the key,
    every key of one character used in a row, a result that is a mapping with
    an item or a fluid and whose count and amount, if there, are not numbers
    at or below zero, and an ['acceptMirrored'] that, if there, is a
    boolean. *)
Theorem mechanical_crafting_in_order
        py_str set_iter path recipe kd row rows result self :
  (forall s, Permutation (set_iter s) s) ->
  Py.dict_get "type" recipe = Some (JStr "create:mechanical_crafting") ->
  Py.dict_get "key" recipe = Some (JDict kd) ->
  Py.dict_get "pattern" recipe = Some (JList (map JStr (row :: rows))) ->
  (forall r char,
      In r (row :: rows) -> In char (Py.chars r) -> char <> " " ->
      Py.dict_in char kd = true) ->
  (forall key,
      In key (Py.dict_keys kd) -> String.length key = 1 ->
      exists r, In r (row :: rows) /\ In key (Py.chars r) /\ key <> " ") ->
  Py.dict_get "result" recipe = Some (JDict result) ->
  Py.dict_in "item" result || Py.dict_in "fluid" result = true ->
  (forall count, Py.dict_get "count" result = Some count ->
                 Py.is_number count && Py.le_zero count = false) ->
  (forall amount, Py.dict_get "amount" result = Some amount ->
                  Py.is_number amount && Py.le_zero amount = false) ->
  (forall accept, Py.dict_get "acceptMirrored" recipe = Some accept ->
                  Py.is_bool accept = true) ->
  validate_recipe_file py_str set_iter (mkFile path (Ok (JDict recipe))) self =
  (Ok tt,
   mkValidator (recipes_path self) (errors self) (warnings self)
     (validated_files self + 1) (append (stdout self) ("Validating: " ++ path))).
Proof.
  intros Hperm Htype Hkey Hpattern Hdefined Hused Hresult Hid Hcount Hamount Hmirror.
  rewrite <- (app_nil_r (errors self)), <- (app_nil_r (warnings self)).
  apply (validate_recipe_file_known py_str (validators py_str set_iter) path recipe
           _ (validate_mechanical_crafting py_str set_iter) _ _ self Htype eq_refl).
  assert (Hp : writes (validate_pattern set_iter path recipe) (Ok tt)
                      (mkDelta [] [] 0 [])).
  { assert (Hk : Py.dict_get_default "key" (JDict []) recipe = JDict kd)
      by (unfold Py.dict_get_default; now rewrite Hkey).
    pose proof (validate_pattern_writes set_iter path recipe (JStr row)
                  (map JStr rows) kd Hpattern Hk) as H.
    change (JStr row :: map JStr rows) with (map JStr (row :: rows)) in H.
    now rewrite (pattern_delta_clean set_iter path (row :: rows) kd
                   Hperm Hdefined Hused) in H. }
  assert (Hr : writes (validate_result py_str path (JDict result)) (Ok tt)
                      (mkDelta [] [] 0 [])).
  { pose proof (writes_validate_result py_str path result) as H.
    now rewrite (result_errors_clean py_str path result Hid Hcount Hamount) in H. }
  unfold validate_mechanical_crafting, Py.dict_in, Py.subscript.
  rewrite Hkey, Hpattern, Hresult. cbn [negb].
  destruct (Py.dict_get "acceptMirrored" recipe) as [accept|].
  - specialize (Hmirror accept eq_refl).
    destruct accept; try discriminate Hmirror.
    eapply writes_conv;
      [ repeat first
          [ exact Hp | exact Hr
          | eapply writes_bind_eq; [| cbv beta; cbn [negb Py.is_dict Py.is_list
                                                     Py.is_bool map] | reflexivity]
          | writes_go ]
      | reflexivity ].
  - eapply writes_conv;
      [ repeat first
          [ exact Hp | exact Hr
          | eapply writes_bind_eq; [| cbv beta; cbn [negb Py.is_dict Py.is_list
                                                     Py.is_bool map] | reflexivity]
          | writes_go ]
      | reflexivity ].
Qed.

Lemma mechanical_crafting_in_order_witness :
  validate_recipe_file example_str insertion_order
    (mkFile "gun.json"
       (Ok (JDict [("type", JStr "create:mechanical_crafting");
                   ("key", JDict [("A", JDict [("item", JStr "iron")]);
                                  ("B", JDict [("tag", JStr "planks")])]);
                   ("pattern", JList [JStr "AB"; JStr " A"]);
                   ("result", JDict [("item", JStr "gun"); ("count", JInt 2)]);
                   ("acceptMirrored", JBool false)])))
    (init "recipes") =
  (Ok tt, mkValidator "recipes" [] [] 1 ["Validating: gun.json"]).
Proof.
  apply (mechanical_crafting_in_order example_str insertion_order "gun.json"
           [("type", JStr "create:mechanical_crafting");
            ("key", JDict [("A", JDict [("item", JStr "iron")]);
                           ("B", JDict [("tag", JStr "planks")])]);
            ("pattern", JList [JStr "AB"; JStr " A"]);
            ("result", JDict [("item", JStr "gun"); ("count", JInt 2)]);
            ("acceptMirrored", JBool false)]
           [("A", JDict [("item", JStr "iron")]); ("B", JDict [("tag", JStr "planks")])]
           "AB" [" A"]
           [("item", JStr "gun"); ("count", JInt 2)]
           (init "recipes")); try reflexivity.
  - intros r char [<-|[<-|[]]] Hchar Hne; simpl in Hchar;
      destruct Hchar as [<-|[<-|[]]]; try reflexivity; congruence.
  - intros key [<-|[<-|[]]] _; exists "AB"; simpl;
      (split; [auto|]); (split; [auto | discriminate]).
  - intros count H. injection H as <-. reflexivity.
  - intros amount H. discriminate H.
  - intros accept H. injection H as <-. reflexivity.
Defined.

(** ** Where a check can raise *)

(** The rule set for mechanical crafting, around its check of the
    pattern. *)
Lemma mechanical_crafting_parts py_str set_iter path recipe :
  exists d1 d2, forall self,
    validate_mechanical_crafting py_str set_iter path recipe self =
    match (if negb (Py.dict_in "pattern" recipe) then
             add_error path "Mechanical crafting missing 'pattern' field"
           else
             pattern <- lift (Py.subscript recipe "pattern") ;;
             if negb (Py.is_list pattern)
             then add_error path "Field 'pattern' must be a JSON array"
             else validate_pattern set_iter path recipe) (extend self d1) with
    | (Ok _, self') => (Ok tt, extend self' d2)
    | (Raise e, self') => (Raise e, self')
    end.
Proof.
  unfold validate_mechanical_crafting.
  match goal with
  | |- exists d1 d2, forall self,
        bind ?K (fun _ => bind ?P (fun _ => ?R)) self = _ =>
      assert (HK : exists d1, writes K (Ok tt) d1);
      [| assert (HR : exists d2, writes R (Ok tt) d2) ]
  end.
  - unfold Py.dict_in, Py.subscript.
    destruct (Py.dict_get "key" recipe) as [[]|]; eexists;
      (eapply writes_conv; [writes_go | reflexivity]).
  - unfold Py.dict_in, Py.subscript.
    destruct (Py.dict_get "result" recipe) as [[]|];
      destruct (Py.dict_get "acceptMirrored" recipe) as [[]|]; eexists;
      (eapply writes_conv;
       [ repeat first
           [ writes_go
           | apply writes_add_error
           | eapply writes_bind_eq; [| cbv beta; cbn [negb Py.is_bool] | reflexivity] ]
       | reflexivity ]).
  - destruct HK as [d1 HK], HR as [d2 HR]. exists d1, d2. intros self.
    unfold bind at 1. rewrite HK. unfold bind at 1.
    match goal with
    | |- context [match ?m (extend self d1) with _ => _ end] =>
        destruct (m (extend self d1)) as [[[]|e] self']
    end; [apply HR | reflexivity].
Qed.

(** The rule set for mechanical crafting returns, unless the pattern has
    rows and the key is there and is not a mapping. *)
Lemma mechanical_crafting_returns py_str set_iter path recipe :
  (exists d, writes (validate_mechanical_crafting py_str set_iter path recipe)
                    (Ok tt) d) \/
  (exists key row rows,
      Py.dict_get "key" recipe = Some key /\ Py.is_dict key = false /\
      Py.dict_get "pattern" recipe = Some (JList (row :: rows))).
Proof.
  destruct (mechanical_crafting_parts py_str set_iter path recipe)
    as (d1 & d2 & Hparts).
  assert (Hwrap : forall dp,
    writes (if negb (Py.dict_in "pattern" recipe) then
              add_error path "Mechanical crafting missing 'pattern' field"
            else
              pattern <- lift (Py.subscript recipe "pattern") ;;
              if negb (Py.is_list pattern)
              then add_error path "Field 'pattern' must be a JSON array"
              else validate_pattern set_iter path recipe) (Ok tt) dp ->
    exists d, writes (validate_mechanical_crafting py_str set_iter path recipe)
                     (Ok tt) d).
  { intros dp Hp. exists (dapp d1 (dapp dp d2)). intros self.
    rewrite Hparts, Hp. now rewrite !extend_dapp. }
  unfold Py.dict_in, Py.subscript in Hwrap.
  destruct (Py.dict_get "pattern" recipe) as [pattern|] eqn:Hpattern.
  - destruct pattern as [| | | | |rows|];
      try (left; eapply Hwrap; eapply writes_conv; [writes_go | reflexivity]).
    destruct rows as [|row rows].
    + left. eapply Hwrap. cbn [negb].
      eapply writes_bind_eq; [apply writes_lift | | reflexivity].
      cbv beta. cbn [Py.is_list negb].
      intros self. unfold validate_pattern, bind, lift, Py.subscript.
      rewrite Hpattern. cbn [Py.truth Py.nonempty negb].
      apply writes_add_error.
    + destruct (Py.dict_get "key" recipe) as [key|] eqn:Hkey.
      * destruct (Py.is_dict key) eqn:Hdict.
        -- destruct key; try discriminate Hdict.
           left. eapply Hwrap. cbn [negb].
           eapply writes_bind_eq; [apply writes_lift | | reflexivity].
           cbv beta. cbn [Py.is_list negb].
           apply (validate_pattern_writes set_iter path recipe row rows d Hpattern).
           unfold Py.dict_get_default. now rewrite Hkey.
        -- right. exists key, row, rows. auto.
      * left. eapply Hwrap. cbn [negb].
        eapply writes_bind_eq; [apply writes_lift | | reflexivity].
        cbv beta. cbn [Py.is_list negb].
        apply (validate_pattern_writes set_iter path recipe row rows [] Hpattern).
        unfold Py.dict_get_default. now rewrite Hkey.
  - left. eapply Hwrap. cbn [negb]. apply writes_add_error.
Qed.

(** Every rule set of the table returns, but for mechanical crafting in the
    case above. *)
Lemma rule_sets_return py_str set_iter kind rule path recipe :
  Py.get (validators py_str set_iter) (JStr kind) = Ok (Some rule) ->
  (exists d, writes (rule path recipe) (Ok tt) d) \/
  (kind = "create:mechanical_crafting" /\
   exists key row rows,
     Py.dict_get "key" recipe = Some key /\ Py.is_dict key = false /\
     Py.dict_get "pattern" recipe = Some (JList (row :: rows))).
Proof.
  unfold Py.get, validators. cbn [find fst].
  repeat match goal with
         | |- context [String.eqb kind ?s] =>
             destruct (String.eqb_spec kind s) as [->|_]
         end;
    cbn [option_map snd]; intros H; try discriminate H;
    injection H as <-.
  - destruct (mechanical_crafting_returns py_str set_iter path recipe) as [Hd|Hr];
      [left; exact Hd | right; split; [reflexivity | exact Hr]].
  - left. eexists. apply writes_validate_cutting.
  - left. eexists. apply writes_validate_mixing.
  - left. eexists. apply writes_validate_sequenced_assembly.
  - left. eexists. apply (writes_presence_only validate_filling "Filling"). auto.
  - left. eexists. apply (writes_presence_only validate_emptying "Emptying"). auto.
  - left. eexists. apply (writes_presence_only validate_pressing "Pressing"). auto.
  - left. eexists. apply (writes_presence_only validate_deploying "Deploying"). auto 6.
  - left. eexists. apply writes_validate_vanilla_crafting.
  - left. eexists. apply writes_validate_vanilla_crafting.
Qed.

(** X13: the checks of a parsed mapping raise in two cases only: the
    ['type'] is a list or a mapping, which the table cannot look up, or the
    recipe is a mechanical-crafting one whose pattern has rows and whose
    ['key'] is there and is not a mapping.  Every other mapping is checked to
    the end, so its file gets no "Unexpected error". *)
Theorem checks_raise_only_when py_str set_iter path recipe e self self' :
  check_recipe py_str (validators py_str set_iter)
               (mkFile path (Ok (JDict recipe))) self = (Raise e, self') ->
  (exists recipe_type,
      Py.dict_get "type" recipe = Some recipe_type /\
      (Py.is_list recipe_type = true \/ Py.is_dict recipe_type = true)) \/
  (Py.dict_get "type" recipe = Some (JStr "create:mechanical_crafting") /\
   exists key row rows,
     Py.dict_get "key" recipe = Some key /\ Py.is_dict key = false /\
     Py.dict_get "pattern" recipe = Some (JList (row :: rows))).
Proof.
  unfold check_recipe, bind, lift, Py.dict_in, Py.subscript.
  cbn [relative_path load].
  destruct (Py.dict_get "type" recipe) as [recipe_type|]; cbn [negb];
    [|discriminate].
  destruct recipe_type as [| | | |kind|l|d0]; try discriminate.
  - destruct (Py.get (validators py_str set_iter) (JStr kind))
      as [[rule|]|e0] eqn:Hget; try discriminate.
    destruct (rule_sets_return py_str set_iter kind rule path recipe Hget)
      as [[d Hd]|[-> Hraise]].
    + cbv beta iota. rewrite Hd. discriminate.
    + intros _. right. auto.
  - intros _. left. exists (JList l). auto.
  - intros _. left. exists (JDict d0). auto.
Qed.

Lemma checks_raise_only_when_witness :
  (exists recipe_type,
      Py.dict_get "type" [("type", JDict [])] = Some recipe_type /\
      (Py.is_list recipe_type = true \/ Py.is_dict recipe_type = true)) \/
  (Py.dict_get "type" [("type", JDict [])] = Some (JStr "create:mechanical_crafting") /\
   exists key row rows,
     Py.dict_get "key" [("type", JDict [])] = Some key /\ Py.is_dict key = false /\
     Py.dict_get "pattern" [("type", JDict [])] = Some (JList (row :: rows))).
Proof.
  apply (checks_raise_only_when example_str insertion_order "a.json"
           [("type", JDict [])] (TypeError "unhashable type: 'dict'")
           (init "recipes") (init "recipes")).
  reflexivity.
Defined.

(** ** The run as a whole *)

Lemma results_lines_after_printing self lines :
  results_lines (extend self (mkDelta [] [] 0 lines)) = results_lines self.
Proof.
  unfold results_lines, extend;
    cbn [errors warnings validated_files d_errors d_warnings d_files].
  now rewrite !app_nil_r, Nat.add_0_r.
Qed.

Lemma files_delta_errors py_str set_iter files :
  d_errors (files_delta py_str set_iter files) =
  flat_map (fun file => d_errors (file_delta py_str set_iter file)) files.
Proof.
  induction files as [|file files IH]; [reflexivity|].
  cbn [files_delta fold_right dapp d_errors flat_map].
  fold (files_delta py_str set_iter files). now rewrite IH.
Qed.



(** X15: what a run adds does not depend on what the validator held
    before: its errors, warnings and count of files are those it held followed
    by those of the same run on a fresh validator for the same path.  The
    result however is success only if the validator held no error before. *)
Theorem run_on_a_used_validator py_str set_iter fs self :
  let fresh := validate_all py_str set_iter fs (init (recipes_path self)) in
  let run := validate_all py_str set_iter fs self in
  errors (snd run) = app (errors self) (errors (snd fresh)) /\
  warnings (snd run) = app (warnings self) (warnings (snd fresh)) /\
  validated_files (snd run) = validated_files self + validated_files (snd fresh) /\
  (fst run = Ok true <-> errors self = [] /\ fst fresh = Ok true).
Proof.
  cbv zeta. rewrite !validate_all_run.
  destruct (dir_exists fs); cbv zeta; cbn [fst snd].
  - unfold after_files, extend, dapp, init;
      cbn [errors warnings validated_files recipes_path
           d_errors d_warnings d_files d_stdout app Nat.add].
    rewrite !app_nil_r, !Nat.add_0_r.
    split; [reflexivity|]. split; [reflexivity|]. split; [reflexivity|].
    rewrite length_app.
    destruct (errors self) as [|x l]; simpl.
    + split; [intros H; split; [reflexivity | exact H] | intros [_ H]; exact H].
    + split; [discriminate | intros [H _]; discriminate H].
  - unfold extend, init;
      cbn [errors warnings validated_files recipes_path
           d_errors d_warnings d_files d_stdout app Nat.add].
    rewrite !app_nil_r, !Nat.add_0_r.
    split; [reflexivity|]. split; [reflexivity|]. split; [reflexivity|].
    split; [discriminate | intros [_ H]; discriminate H].
Qed.

Lemma flat_map_nil_iff {A B} (f : A -> list B) l :
  flat_map f l = [] <-> forall x, In x l -> f x = [].
Proof.
  split; [|apply flat_map_nil].
  induction l as [|y l IH]; simpl; [easy|].
  intros H x [<-|Hx]; apply app_eq_nil in H; [tauto|]. apply IH; tauto.
Qed.


(** ** Mechanical crafting without a pattern to check *)

Lemma writes_mechanical_crafting_no_rows py_str set_iter path recipe :
  match Py.dict_get "pattern" recipe with
  | Some (JList _) => False
  | _ => True
  end ->
  writes (validate_mechanical_crafting py_str set_iter path recipe) (Ok tt)
    (mkDelta
       (app match Py.dict_get "key" recipe with
            | None => ["[ERROR] " ++ path ++ ": Mechanical crafting missing 'key' field"]
            | Some (JDict _) => []
            | Some _ => ["[ERROR] " ++ path ++ ": Field 'key' must be a JSON object"]
            end
       (app match Py.dict_get "pattern" recipe with
            | None => ["[ERROR] " ++ path
                       ++ ": Mechanical crafting missing 'pattern' field"]
            | Some _ => ["[ERROR] " ++ path ++ ": Field 'pattern' must be a JSON array"]
            end
       (app match Py.dict_get "result" recipe with
            | None => ["[ERROR] " ++ path
                       ++ ": Mechanical crafting missing 'result' field"]
            | Some (JDict result) => result_errors py_str path result
            | Some _ => ["[ERROR] " ++ path ++ ": Result must be a JSON object"]
            end
            match Py.dict_get "acceptMirrored" recipe with
            | Some (JBool _) | None => []
            | Some _ => ["[ERROR] " ++ path ++ ": Field 'acceptMirrored' must be a boolean"]
            end)))
       [] 0 []).
Proof.
  intros Hpattern.
  unfold validate_mechanical_crafting, Py.dict_in, Py.subscript.
  match goal with
  | |- writes (bind ?K (fun _ => bind ?P (fun _ => bind ?R (fun _ => ?A)))) _ _ =>
      assert (HK : writes K (Ok tt)
                (mkDelta
                   match Py.dict_get "key" recipe with
                   | None => ["[ERROR] " ++ path
                              ++ ": Mechanical crafting missing 'key' field"]
                   | Some (JDict _) => []
                   | Some _ => ["[ERROR] " ++ path
                                ++ ": Field 'key' must be a JSON object"]
                   end [] 0 []));
      [| assert (HP : writes P (Ok tt)
                   (mkDelta
                      match Py.dict_get "pattern" recipe with
                      | None => ["[ERROR] " ++ path
                                 ++ ": Mechanical crafting missing 'pattern' field"]
                      | Some _ => ["[ERROR] " ++ path
                                   ++ ": Field 'pattern' must be a JSON array"]
                      end [] 0 []));
         [| assert (HR : writes R (Ok tt)
                      (mkDelta
                         match Py.dict_get "result" recipe with
                         | None => ["[ERROR] " ++ path
                                    ++ ": Mechanical crafting missing 'result' field"]
                         | Some (JDict result) => result_errors py_str path result
                         | Some _ => ["[ERROR] " ++ path
                                      ++ ": Result must be a JSON object"]
                         end [] 0 []));
            [| assert (HA : writes A (Ok tt)
                         (mkDelta
                            match Py.dict_get "acceptMirrored" recipe with
                            | Some (JBool _) | None => []
                            | Some _ => ["[ERROR] " ++ path
                                         ++ ": Field 'acceptMirrored' must be a boolean"]
                            end [] 0 [])) ]]]
  end.
  - destruct (Py.dict_get "key" recipe) as [[]|];
      (eapply writes_conv; [writes_go | reflexivity]).
  - destruct (Py.dict_get "pattern" recipe) as [[]|]; try contradiction;
      (eapply writes_conv; [writes_go | reflexivity]).
  - destruct (Py.dict_get "result" recipe) as [[]|];
      (eapply writes_conv;
       [ first [ writes_go
               | eapply writes_bind_eq;
                 [apply writes_lift | apply writes_add_error | reflexivity] ]
       | reflexivity ]).
  - destruct (Py.dict_get "acceptMirrored" recipe) as [[]|];
      (eapply writes_conv; [writes_go | reflexivity]).
  - eapply writes_conv.
    + eapply writes_bind_eq;
        [ exact HK
        | eapply writes_bind_eq;
          [ exact HP
          | eapply writes_bind_eq; [exact HR | exact HA | reflexivity]
          | reflexivity ]
        | reflexivity ].
    + delta_norm. reflexivity.
Qed.

(** X17: a mechanical-crafting recipe whose ['pattern'] is missing or is
    not a list never raises, whatever its key is, the pattern check not being
    run; it gets, in this order, the error for a key that is missing or not a
    mapping, the error for the pattern, the error for a result that is missing
    or not a mapping or else the errors of the result, and the error for an
    ['acceptMirrored'] that is there and is not a boolean; it gets no
    warning. *)
Theorem mechanical_crafting_without_rows py_str set_iter path recipe self :
  match Py.dict_get "pattern" recipe with
  | Some (JList _) => False
  | _ => True
  end ->
  validate_mechanical_crafting py_str set_iter path recipe self =
  (Ok tt,
   mkValidator (recipes_path self)
     (app (errors self)
     (app match Py.dict_get "key" recipe with
          | None => ["[ERROR] " ++ path ++ ": Mechanical crafting missing 'key' field"]
          | Some (JDict _) => []
          | Some _ => ["[ERROR] " ++ path ++ ": Field 'key' must be a JSON object"]
          end
     (app match Py.dict_get "pattern" recipe with
          | None => ["[ERROR] " ++ path
                     ++ ": Mechanical crafting missing 'pattern' field"]
          | Some _ => ["[ERROR] " ++ path ++ ": Field 'pattern' must be a JSON array"]
          end
     (app match Py.dict_get "result" recipe with
          | None => ["[ERROR] " ++ path
                     ++ ": Mechanical crafting missing 'result' field"]
          | Some (JDict result) => result_errors py_str path result
          | Some _ => ["[ERROR] " ++ path ++ ": Result must be a JSON object"]
          end
          match Py.dict_get "acceptMirrored" recipe with
          | Some (JBool _) | None => []
          | Some _ => ["[ERROR] " ++ path ++ ": Field 'acceptMirrored' must be a boolean"]
          end))))
     (warnings self) (validated_files self) (stdout self)).
Proof.
  intros Hpattern.
  rewrite (writes_run _ _ _ _ self
             (writes_mechanical_crafting_no_rows py_str set_iter path recipe Hpattern)).
  now rewrite app_nil_r.
Qed.

Lemma mechanical_crafting_without_rows_witness :
  validate_mechanical_crafting example_str insertion_order "a.json"
    [("key", JInt 3); ("pattern", JStr "AB"); ("result", JStr "gun");
     ("acceptMirrored", JInt 1)]
    (init "recipes") =
  (Ok tt,
   mkValidator "recipes"
     ["[ERROR] a.json: Field 'key' must be a JSON object";
      "[ERROR] a.json: Field 'pattern' must be a JSON array";
      "[ERROR] a.json: Result must be a JSON object";
      "[ERROR] a.json: Field 'acceptMirrored' must be a boolean"]
     [] 0 []).
Proof.
  apply (mechanical_crafting_without_rows example_str insertion_order "a.json"
           [("key", JInt 3); ("pattern", JStr "AB"); ("result", JStr "gun");
            ("acceptMirrored", JInt 1)]
           (init "recipes")).
  exact I.
Defined.

(** * Two runs, to the line *)

(** ** The calculus of [agree] *)

Lemma framed_of_sim {A} (m : M A) : sim m m -> framed m.
Proof. intros (r & d & _ & H & _). now exists r, d. Qed.

Lemma agree_intro {A} path (m1 m2 : M A) r d :
  writes m1 r d -> writes m2 r d -> agree path m1 m2.
Proof.
  intros H1 H2.
  exists r, (d_errors d), [], [], [], (d_warnings d), (d_files d), (d_stdout d).
  assert (E : mkDelta (app (d_errors d) (app [] [])) (d_warnings d)
                      (d_files d) (d_stdout d) = d)
    by (destruct d; cbn; now rewrite app_nil_r).
  rewrite E. repeat split; auto. intros e [].
Qed.

Lemma agree_of_sim {A} path (m : M A) : sim m m -> agree path m m.
Proof. intros (r & d & _ & H & _). now apply agree_intro with r d. Qed.

Lemma agree_bind_left {A B} path (m : M A) (k1 k2 : A -> M B) :
  framed m -> (forall a, agree path (k1 a) (k2 a)) ->
  agree path (bind m k1) (bind m k2).
Proof.
  intros (r & d & Hm) Hk. destruct r as [a|e].
  - destruct (Hk a) as (r' & b & x1 & x2 & af & ws & n & out & H1 & H2 & Hp & Hx).
    exists r', (app (d_errors d) b), x1, x2, af,
           (app (d_warnings d) ws), (d_files d + n), (app (d_stdout d) out).
    split; [|split; [|split]]; auto.
    + eapply writes_bind_eq; [exact Hm | exact H1 |].
      unfold dapp; cbn [d_errors d_warnings d_files d_stdout].
      now rewrite <- app_assoc.
    + eapply writes_bind_eq; [exact Hm | exact H2 |].
      unfold dapp; cbn [d_errors d_warnings d_files d_stdout].
      now rewrite <- app_assoc.
  - apply agree_intro with (Raise e) d; now apply writes_bind_raise.
Qed.

Lemma agree_bind_right {A B} path (m1 m2 : M A) (k : A -> M B) :
  agree path m1 m2 -> (forall a, framed (k a)) ->
  agree path (bind m1 k) (bind m2 k).
Proof.
  intros (r & b & x1 & x2 & af & ws & n & out & H1 & H2 & Hp & Hx) Hk.
  destruct r as [a|e].
  - destruct (Hk a) as (r' & d & Hd).
    exists r', b, x1, x2, (app af (d_errors d)),
           (app ws (d_warnings d)), (n + d_files d), (app out (d_stdout d)).
    split; [|split; [|split]]; auto.
    + eapply writes_bind_eq; [exact H1 | exact Hd |].
      unfold dapp; cbn [d_errors d_warnings d_files d_stdout].
      now rewrite <- !app_assoc.
    + eapply writes_bind_eq; [exact H2 | exact Hd |].
      unfold dapp; cbn [d_errors d_warnings d_files d_stdout].
      now rewrite <- !app_assoc.
  - exists (Raise e), b, x1, x2, af, ws, n, out.
    split; [|split; [|split]]; auto using writes_bind_raise.
Qed.

Lemma agree_try_except {A} path (m1 m2 : M A) (handler : exn -> M A) :
  agree path m1 m2 -> (forall e, framed (handler e)) ->
  agree path (try_except m1 handler) (try_except m2 handler).
Proof.
  intros (r & b & x1 & x2 & af & ws & n & out & H1 & H2 & Hp & Hx) Hh.
  destruct r as [a|e].
  - exists (Ok a), b, x1, x2, af, ws, n, out.
    split; [|split; [|split]]; auto using writes_try_ok.
  - destruct (Hh e) as (r' & d & Hd).
    exists r', b, x1, x2, (app af (d_errors d)),
           (app ws (d_warnings d)), (n + d_files d), (app out (d_stdout d)).
    split; [|split; [|split]]; auto.
    + eapply writes_conv; [exact (writes_try_raise _ _ _ _ _ _ H1 Hd)|].
      unfold dapp; cbn [d_errors d_warnings d_files d_stdout].
      now rewrite <- !app_assoc.
    + eapply writes_conv; [exact (writes_try_raise _ _ _ _ _ _ H2 Hd)|].
      unfold dapp; cbn [d_errors d_warnings d_files d_stdout].
      now rewrite <- !app_assoc.
Qed.

Lemma agree_undefined_keys path key l l' :
  Permutation l l' ->
  agree path (for_each l (undefined_key_check path key))
             (for_each l' (undefined_key_check path key)).
Proof.
  intros Hp. destruct (contains_cases key) as [[f Hf]|[e He]].
  - exists (Ok tt), [],
      (flat_map (fun c => if f c then []
                          else ["[ERROR] " ++ path ++ ": Pattern uses key '" ++ c
                                ++ "' but it's not defined in 'key' object"]) l),
      (flat_map (fun c => if f c then []
                          else ["[ERROR] " ++ path ++ ": Pattern uses key '" ++ c
                                ++ "' but it's not defined in 'key' object"]) l'),
      [], [], 0, [].
    cbn [app]. rewrite !app_nil_r.
    split; [|split; [|split]].
    + apply writes_undefined_keys, Hf.
    + apply writes_undefined_keys, Hf.
    + now apply Permutation_flat_map.
    + intros x Hx. now apply in_undefined_key_errors in Hx.
  - apply agree_intro
      with (match l with [] => Ok tt | _ :: _ => Raise e end) dnil.
    + apply writes_undefined_keys_raise, He.
    + replace (match l with [] => Ok tt | _ :: _ => Raise e end)
        with (match l' with [] => Ok tt | _ :: _ => Raise e end).
      * apply writes_undefined_keys_raise, He.
      * destruct l, l'; try reflexivity.
        -- now apply Permutation_nil_cons in Hp.
        -- symmetry in Hp. now apply Permutation_nil_cons in Hp.
Qed.

(** ** The rule sets and the dispatch agree *)

Section KeyOrder.

Variable py_str : json -> string.
Variables set_iter set_iter' : Py.set -> list string.
Hypothesis set_iter_same : forall s, Permutation (set_iter s) (set_iter' s).

#[local] Hint Resolve sim_validate_ingredients sim_validate_result
  sim_validate_results : sim.

Lemma agree_validate_pattern path recipe :
  agree path (validate_pattern set_iter path recipe)
             (validate_pattern set_iter' path recipe).
Proof.
  unfold validate_pattern.
  apply agree_bind_left; [apply framed_of_sim, sim_lift | intros pattern].
  destruct (negb (Py.truth pattern)); [apply agree_of_sim, sim_add_error|].
  apply agree_bind_left; [apply framed_of_sim, sim_lift | intros rows].
  apply agree_bind_left; [apply framed_of_sim; sim_auto | intros used_keys].
  apply agree_bind_right; [| intros _; apply framed_of_sim; sim_auto].
  apply agree_undefined_keys, set_iter_same.
Qed.

Lemma agree_validate_mechanical_crafting path recipe :
  agree path (validate_mechanical_crafting py_str set_iter path recipe)
             (validate_mechanical_crafting py_str set_iter' path recipe).
Proof.
  unfold validate_mechanical_crafting.
  apply agree_bind_left; [apply framed_of_sim; sim_auto | intros _].
  apply agree_bind_right; [| intros _; apply framed_of_sim; sim_auto].
  destruct (negb (Py.dict_in "pattern" recipe));
    [apply agree_of_sim, sim_add_error|].
  apply agree_bind_left; [apply framed_of_sim, sim_lift | intros pattern].
  destruct (negb (Py.is_list pattern)); [apply agree_of_sim, sim_add_error|].
  apply agree_validate_pattern.
Qed.

Lemma table_agree_validators :
  table_agree (validators py_str set_iter) (validators py_str set_iter').
Proof.
  unfold table_agree, validators.
  repeat (constructor; [split; [reflexivity | intros path recipe; simpl] |]);
    auto using agree_validate_mechanical_crafting, agree_of_sim,
      sim_validate_cutting, sim_validate_mixing,
      sim_validate_sequenced_assembly, sim_validate_filling,
      sim_validate_emptying, sim_validate_pressing, sim_validate_deploying,
      sim_validate_vanilla_crafting.
Qed.

Lemma table_agree_get t1 t2 (k : json) :
  table_agree t1 t2 ->
  (exists e, Py.get t1 k = Raise e /\ Py.get t2 k = Raise e) \/
  (Py.get t1 k = Ok None /\ Py.get t2 k = Ok None) \/
  (exists v1 v2, Py.get t1 k = Ok (Some v1) /\ Py.get t2 k = Ok (Some v2) /\
                 forall path recipe, agree path (v1 path recipe) (v2 path recipe)).
Proof.
  intros Ht. destruct k; simpl; eauto.
  induction Ht as [|[k1 v1] [k2 v2] t1 t2 [Hk Hv] Ht IH]; simpl in *; auto.
  subst k2. destruct (String.eqb s k1); simpl; eauto 8.
Qed.

Lemma agree_check_recipe t1 t2 file :
  table_agree t1 t2 ->
  agree (relative_path file)
        (check_recipe py_str t1 file) (check_recipe py_str t2 file).
Proof.
  intros Ht. unfold check_recipe.
  apply agree_bind_left; [apply framed_of_sim, sim_lift | intros recipe].
  destruct recipe; try apply agree_of_sim, sim_add_error.
  destruct (negb (Py.dict_in "type" d)); [apply agree_of_sim, sim_add_error|].
  apply agree_bind_left; [apply framed_of_sim, sim_lift | intros recipe_type].
  destruct (table_agree_get t1 t2 recipe_type Ht)
    as [(e & -> & ->) | [(-> & ->) | (v1 & v2 & -> & -> & Hv)]].
  - exact (agree_of_sim _ _ (sim_lift (Raise e))).
  - apply agree_of_sim, sim_add_warning.
  - apply Hv.
Qed.

Lemma agree_validate_recipe_file file :
  agree (relative_path file)
        (validate_recipe_file py_str set_iter file)
        (validate_recipe_file py_str set_iter' file).
Proof.
  unfold validate_recipe_file, validate_recipe_file_with.
  apply agree_bind_left; [apply framed_of_sim, sim_print | intros _].
  apply agree_bind_left; [apply framed_of_sim, sim_count_file | intros _].
  apply agree_try_except;
    [apply agree_check_recipe, table_agree_validators|].
  intros e; destruct e; apply framed_of_sim, sim_add_error.
Qed.

End KeyOrder.

(** ** Lists that are the same but for the order of undefined keys *)

Lemma same_but_key_orders_refl l : same_but_key_orders l l.
Proof.
  rewrite <- (app_nil_r l). apply same_block with ""; [|constructor].
  exists l, [], [], []. rewrite app_nil_r.
  repeat split; auto. intros e [].
Qed.

Lemma same_but_key_orders_app l1 l2 m1 m2 :
  same_but_key_orders l1 l2 -> same_but_key_orders m1 m2 ->
  same_but_key_orders (app l1 m1) (app l2 m2).
Proof.
  induction 1 as [|path l1 l2 rest1 rest2 Hb _ IH]; intros Hm; [assumption|].
  rewrite <- !app_assoc. apply same_block with path; auto.
Qed.

Lemma same_but_key_orders_cons x l1 l2 :
  same_but_key_orders l1 l2 -> same_but_key_orders (x :: l1) (x :: l2).
Proof.
  intros H.
  exact (same_but_key_orders_app [x] [x] l1 l2 (same_but_key_orders_refl [x]) H).
Qed.

Lemma same_but_key_orders_length l1 l2 :
  same_but_key_orders l1 l2 -> List.length l1 = List.length l2.
Proof.
  induction 1 as [|path l1 l2 rest1 rest2 Hb _ IH]; [reflexivity|].
  destruct Hb as (b & k1 & k2 & a & -> & -> & Hp & _).
  rewrite !length_app, (Permutation_length Hp), IH. reflexivity.
Qed.

(** Related lists are, position by position, the same line or two errors
    for undefined keys of one path. *)
Lemma same_but_key_orders_lines l1 l2 :
  same_but_key_orders l1 l2 ->
  Forall2 (fun a b => a = b \/
                      exists path, is_undefined_key_error path a /\
                                   is_undefined_key_error path b) l1 l2.
Proof.
  assert (Hrefl : forall l : list string,
    Forall2 (fun a b => a = b \/
                        exists path, is_undefined_key_error path a /\
                                     is_undefined_key_error path b) l l)
    by (intros l; induction l; constructor; auto).
  induction 1 as [|path l1 l2 rest1 rest2 Hb _ IH]; [constructor|].
  destruct Hb as (b & k1 & k2 & a & -> & -> & Hp & Hk).
  rewrite <- !app_assoc.
  apply Forall2_app; [apply Hrefl|].
  apply Forall2_app; [| apply Forall2_app; [apply Hrefl | exact IH]].
  assert (Hk2 : forall e, In e k2 -> is_undefined_key_error path e).
  { intros e He. apply Hk. eapply Permutation_in; [symmetry; exact Hp | exact He]. }
  pose proof (Permutation_length Hp) as Hl.
  clear Hp. revert k2 Hk2 Hl.
  induction k1 as [|x k1 IHk]; intros [|y k2] Hk2 Hl; try discriminate; constructor.
  - right. exists path. split; [apply Hk | apply Hk2]; now left.
  - apply IHk; [intros; apply Hk; now right | intros; apply Hk2; now right
               | now injection Hl].
Qed.

(** So the lines for two files do not change places, nor do the errors of
    two files. *)
Example swapped_files_differ :
  ~ same_but_key_orders ["Validating: a.json"; "Validating: b.json"]
                        ["Validating: b.json"; "Validating: a.json"].
Proof.
  intros H. apply same_but_key_orders_lines in H.
  inversion H as [|? ? ? ? [E | (path & (c & E) & _)] _]; discriminate E.
Qed.

Example errors_of_two_files_keep_their_places :
  ~ same_but_key_orders
      ["[ERROR] a.json: Pattern uses key 'A' but it's not defined in 'key' object";
       "[ERROR] b.json: Pattern uses key 'A' but it's not defined in 'key' object"]
      ["[ERROR] b.json: Pattern uses key 'A' but it's not defined in 'key' object";
       "[ERROR] a.json: Pattern uses key 'A' but it's not defined in 'key' object"].
Proof.
  intros H. apply same_but_key_orders_lines in H.
  inversion H as [|? ? ? ? [E | (path & (c & E) & (c' & E'))] _];
    [discriminate E|].
  destruct path as [|ch path]; simpl in E, E'; [discriminate E|].
  injection E; injection E'; intros; congruence.
Qed.

(** ** One file, then the files in the order of the listing *)

Lemma file_delta_agree py_str set_iter set_iter' file :
  (forall s, Permutation (set_iter s) (set_iter' s)) ->
  exists before keys keys' after ws,
    file_delta py_str set_iter file =
      mkDelta (app before (app keys after)) ws 1
              ["Validating: " ++ relative_path file] /\
    file_delta py_str set_iter' file =
      mkDelta (app before (app keys' after)) ws 1
              ["Validating: " ++ relative_path file] /\
    Permutation keys keys' /\
    forall e, In e keys -> is_undefined_key_error (relative_path file) e.
Proof.
  intros Hp.
  destruct (agree_validate_recipe_file py_str _ _ Hp file)
    as (r & b & x1 & x2 & af & ws & n & out & H1 & H2 & Hperm & Hx).
  destruct (writes_unique _ _ _ _ _ H1
              (writes_validate_recipe_file py_str set_iter file)) as [_ E1].
  destruct (writes_unique _ _ _ _ _ H2
              (writes_validate_recipe_file py_str set_iter' file)) as [_ E2].
  destruct (file_delta_counts py_str set_iter file) as [Hf Ho].
  rewrite <- E1 in Hf, Ho. cbn [d_files d_stdout] in Hf, Ho. subst n out.
  exists b, x1, x2, af, ws. auto.
Qed.

Lemma files_delta_agree py_str set_iter set_iter' files :
  (forall s, Permutation (set_iter s) (set_iter' s)) ->
  same_but_key_orders (d_errors (files_delta py_str set_iter files))
                      (d_errors (files_delta py_str set_iter' files)) /\
  d_warnings (files_delta py_str set_iter files) =
  d_warnings (files_delta py_str set_iter' files) /\
  d_files (files_delta py_str set_iter files) =
  d_files (files_delta py_str set_iter' files) /\
  d_stdout (files_delta py_str set_iter files) =
  d_stdout (files_delta py_str set_iter' files).
Proof.
  intros Hp. induction files as [|file files (IHe & IHw & IHf & IHo)].
  - repeat split. constructor.
  - destruct (file_delta_agree py_str _ _ file Hp)
      as (b & x1 & x2 & af & ws & E1 & E2 & Hperm & Hx).
    cbn [files_delta fold_right].
    fold (files_delta py_str set_iter files).
    fold (files_delta py_str set_iter' files).
    rewrite E1, E2. unfold dapp; cbn [d_errors d_warnings d_files d_stdout].
    rewrite IHw, IHf, IHo. repeat split.
    apply same_block with (relative_path file); [|exact IHe].
    exists b, x1, x2, af. auto.
Qed.

(** ** Two runs over the same directory, to the line *)


